(** * DOGGO, the Minecraft Bedrock Discord bot: session lifecycle and safety monitor

    A shallow embedding of the class [MinecraftBedrockDiscordBot] of
    [src/index.js].  The mutable fields of the object become the record
    [Bot]; every method and every event handler becomes a function from a
    [Bot] to the new [Bot] and the list of outbound calls it made, in
    program order.  A handler runs to completion before the next one starts
    (one reading of [Date.now()] per run); the [await]s on [updateEmbed]
    are recorded as an outbound call.  [attemptReconnect] and
    [connectToMinecraft] read fields again after such an [await]: they are
    also given in two halves, up to the [await] and from it, so that what
    other handlers write in between is seen by the second half.  The Discord rendering (embeds,
    replies, the pending authentication prompt) and the HTTP responses are
    left out: they neither read nor write the fields below. *)

From stdpp Require Import base strings gmap list pretty.
From Stdlib Require Import ZArith QArith Lia.

Local Open Scope Z_scope.

(** ** Data model *)

(** A game-protocol client returned by [createClient]. *)
Definition handle := nat.

(** [this.currentCoords]: JavaScript numbers, here rationals. *)
Record Coords := mkCoords { coord_x : Q; coord_y : Q; coord_z : Q }.

Definition origin : Coords := mkCoords 0 0 0.

(** [this.safetyConfig]. *)
Record SafetyConfig := mkSafetyConfig {
  enabled : bool;
  proximityRadius : Z;
  minHealth : Z;
  alertCooldown : Z;
  autoDisconnectOnThreat : bool;
  autoDisconnectHealth : Z
}.

(** The fields of the bot object that the lifecycle manager and the safety
    monitor read or write.  [nearbyPlayers] is a JavaScript [Set], which
    iterates in insertion order: a duplicate-free list.  [trustedPlayers]
    and [blockedPlayers] are only ever queried with [has]. *)
Record Bot := {
  minecraftBot : option handle;
  isConnected : bool;
  isConnecting : bool;
  shouldJoin : bool;
  currentWorld : string;
  currentCoords : Coords;
  reconnectAttempts : Z;
  maxReconnectAttempts : Z;
  reconnectDelay : Z;
  currentHealth : Z;
  lastHealth : Z;
  nearbyPlayers : list string;
  safetyConfig : SafetyConfig;
  lastHealthAlert : Z;
  lastProximityAlert : Z;
  trustedPlayers : gset string;
  blockedPlayers : gset string
}.

Definition set_enabled (v : bool) (c : SafetyConfig) : SafetyConfig :=
  mkSafetyConfig v (proximityRadius c) (minHealth c) (alertCooldown c)
    (autoDisconnectOnThreat c) (autoDisconnectHealth c).

Definition set_minecraftBot (v : option handle) (s : Bot) : Bot :=
  Build_Bot v (isConnected s) (isConnecting s) (shouldJoin s) (currentWorld s)
    (currentCoords s) (reconnectAttempts s) (maxReconnectAttempts s)
    (reconnectDelay s) (currentHealth s) (lastHealth s) (nearbyPlayers s)
    (safetyConfig s) (lastHealthAlert s) (lastProximityAlert s)
    (trustedPlayers s) (blockedPlayers s).

Definition set_isConnected (v : bool) (s : Bot) : Bot :=
  Build_Bot (minecraftBot s) v (isConnecting s) (shouldJoin s)
    (currentWorld s) (currentCoords s) (reconnectAttempts s)
    (maxReconnectAttempts s) (reconnectDelay s) (currentHealth s)
    (lastHealth s) (nearbyPlayers s) (safetyConfig s) (lastHealthAlert s)
    (lastProximityAlert s) (trustedPlayers s) (blockedPlayers s).

Definition set_isConnecting (v : bool) (s : Bot) : Bot :=
  Build_Bot (minecraftBot s) (isConnected s) v (shouldJoin s) (currentWorld s)
    (currentCoords s) (reconnectAttempts s) (maxReconnectAttempts s)
    (reconnectDelay s) (currentHealth s) (lastHealth s) (nearbyPlayers s)
    (safetyConfig s) (lastHealthAlert s) (lastProximityAlert s)
    (trustedPlayers s) (blockedPlayers s).

Definition set_shouldJoin (v : bool) (s : Bot) : Bot :=
  Build_Bot (minecraftBot s) (isConnected s) (isConnecting s) v
    (currentWorld s) (currentCoords s) (reconnectAttempts s)
    (maxReconnectAttempts s) (reconnectDelay s) (currentHealth s)
    (lastHealth s) (nearbyPlayers s) (safetyConfig s) (lastHealthAlert s)
    (lastProximityAlert s) (trustedPlayers s) (blockedPlayers s).

Definition set_currentWorld (v : string) (s : Bot) : Bot :=
  Build_Bot (minecraftBot s) (isConnected s) (isConnecting s) (shouldJoin s) v
    (currentCoords s) (reconnectAttempts s) (maxReconnectAttempts s)
    (reconnectDelay s) (currentHealth s) (lastHealth s) (nearbyPlayers s)
    (safetyConfig s) (lastHealthAlert s) (lastProximityAlert s)
    (trustedPlayers s) (blockedPlayers s).

Definition set_currentCoords (v : Coords) (s : Bot) : Bot :=
  Build_Bot (minecraftBot s) (isConnected s) (isConnecting s) (shouldJoin s)
    (currentWorld s) v (reconnectAttempts s) (maxReconnectAttempts s)
    (reconnectDelay s) (currentHealth s) (lastHealth s) (nearbyPlayers s)
    (safetyConfig s) (lastHealthAlert s) (lastProximityAlert s)
    (trustedPlayers s) (blockedPlayers s).

Definition set_reconnectAttempts (v : Z) (s : Bot) : Bot :=
  Build_Bot (minecraftBot s) (isConnected s) (isConnecting s) (shouldJoin s)
    (currentWorld s) (currentCoords s) v (maxReconnectAttempts s)
    (reconnectDelay s) (currentHealth s) (lastHealth s) (nearbyPlayers s)
    (safetyConfig s) (lastHealthAlert s) (lastProximityAlert s)
    (trustedPlayers s) (blockedPlayers s).

Definition set_currentHealth (v : Z) (s : Bot) : Bot :=
  Build_Bot (minecraftBot s) (isConnected s) (isConnecting s) (shouldJoin s)
    (currentWorld s) (currentCoords s) (reconnectAttempts s)
    (maxReconnectAttempts s) (reconnectDelay s) v (lastHealth s)
    (nearbyPlayers s) (safetyConfig s) (lastHealthAlert s)
    (lastProximityAlert s) (trustedPlayers s) (blockedPlayers s).

Definition set_lastHealth (v : Z) (s : Bot) : Bot :=
  Build_Bot (minecraftBot s) (isConnected s) (isConnecting s) (shouldJoin s)
    (currentWorld s) (currentCoords s) (reconnectAttempts s)
    (maxReconnectAttempts s) (reconnectDelay s) (currentHealth s) v
    (nearbyPlayers s) (safetyConfig s) (lastHealthAlert s)
    (lastProximityAlert s) (trustedPlayers s) (blockedPlayers s).

Definition set_nearbyPlayers (v : list string) (s : Bot) : Bot :=
  Build_Bot (minecraftBot s) (isConnected s) (isConnecting s) (shouldJoin s)
    (currentWorld s) (currentCoords s) (reconnectAttempts s)
    (maxReconnectAttempts s) (reconnectDelay s) (currentHealth s)
    (lastHealth s) v (safetyConfig s) (lastHealthAlert s)
    (lastProximityAlert s) (trustedPlayers s) (blockedPlayers s).

Definition set_safetyConfig (v : SafetyConfig) (s : Bot) : Bot :=
  Build_Bot (minecraftBot s) (isConnected s) (isConnecting s) (shouldJoin s)
    (currentWorld s) (currentCoords s) (reconnectAttempts s)
    (maxReconnectAttempts s) (reconnectDelay s) (currentHealth s)
    (lastHealth s) (nearbyPlayers s) v (lastHealthAlert s)
    (lastProximityAlert s) (trustedPlayers s) (blockedPlayers s).

Definition set_lastHealthAlert (v : Z) (s : Bot) : Bot :=
  Build_Bot (minecraftBot s) (isConnected s) (isConnecting s) (shouldJoin s)
    (currentWorld s) (currentCoords s) (reconnectAttempts s)
    (maxReconnectAttempts s) (reconnectDelay s) (currentHealth s)
    (lastHealth s) (nearbyPlayers s) (safetyConfig s) v (lastProximityAlert s)
    (trustedPlayers s) (blockedPlayers s).

Definition set_lastProximityAlert (v : Z) (s : Bot) : Bot :=
  Build_Bot (minecraftBot s) (isConnected s) (isConnecting s) (shouldJoin s)
    (currentWorld s) (currentCoords s) (reconnectAttempts s)
    (maxReconnectAttempts s) (reconnectDelay s) (currentHealth s)
    (lastHealth s) (nearbyPlayers s) (safetyConfig s) (lastHealthAlert s) v
    (trustedPlayers s) (blockedPlayers s).
(** The state built by the constructor, for given trust and block lists. *)
Definition initial (trusted blocked : gset string) : Bot := {|
  minecraftBot := None;
  isConnected := false;
  isConnecting := false;
  shouldJoin := false;
  currentWorld := "Unknown";
  currentCoords := origin;
  reconnectAttempts := 0;
  maxReconnectAttempts := 10000;
  reconnectDelay := 15000;
  currentHealth := 20;
  lastHealth := 20;
  nearbyPlayers := [];
  safetyConfig := mkSafetyConfig false 50 10 30000 true 6;
  lastHealthAlert := 0;
  lastProximityAlert := 0;
  trustedPlayers := trusted;
  blockedPlayers := blocked
|}.

(** [CONFIG.minecraft.username]. *)
Definition CONFIG_username : string := "".

(** ** Outbound calls *)

(** The callbacks handed to [setTimeout]. *)
Inductive timer :=
  | ReconnectTimer          (* attemptReconnect, fires connectToMinecraft *)
  | ThreatDisconnectTimer   (* checkPlayerProximity, 1000 ms *)
  | HealthDisconnectTimer   (* checkHealth, 500 ms *)
  | TpaTimer.               (* join handler, 5000 ms *)

(** The calls a handler makes on its collaborators.  [SendSafetyAlert] is
    the call of [sendSafetyAlert] with its four arguments; delivering it
    (direct message to the last operator, channel fallback) is the
    notification gateway's part.  [CreateClient] is the call of
    [createClient], [SetInterval] the safety interval armed by
    [setupMinecraftEvents]. *)
Inductive effect :=
  | SendSafetyAlert (title description color : string) (isUrgent : bool)
  | SetTimeout (cb : timer) (delay : Z)
  | SetInterval (delay : Z)
  | CreateClient
  | ClientDisconnect (h : handle)
  | ClientQueue (h : handle) (name command : string)
  | UpdateEmbed
  | UpdateDiscordActivity.

#[global] Instance timer_eq_dec : EqDecision timer.
Proof. solve_decision. Defined.

#[global] Instance effect_eq_dec : EqDecision effect.
Proof. solve_decision. Defined.

Definition action := Bot → Bot * list effect.

Definition andThen (a b : action) : action :=
  λ s, ((b (a s).1).1, (a s).2 ++ (b (a s).1).2).

Infix ">>" := andThen (at level 61, left associativity).

(** [if (this.minecraftBot) this.minecraftBot.disconnect()]. *)
Definition disconnectClient (s : Bot) : list effect :=
  match minecraftBot s with
  | Some h => [ClientDisconnect h]
  | None => []
  end.

Definition nl : string := String (Ascii.ascii_of_nat 10) "".

(** ** Safety monitor *)

Definition threatTitle : string := "🚨 THREAT DETECTED - AUTO DISCONNECT".
Definition proximityTitle : string := "⚠️ Player Proximity Alert".
Definition criticalTitle : string := "🚨 CRITICAL HEALTH - AUTO DISCONNECT".
Definition damageTitle : string := "🩸 Damage Taken".
Definition lowHealthTitle : string := "💀 Critical Health Alert".

(** The guard both evaluators start with. *)
Definition safetyOff (s : Bot) : bool :=
  negb (enabled (safetyConfig s)) || negb (bool_decide (is_Some (minecraftBot s)))
  || negb (isConnected s).

(** One entry of [playerList]. *)
Definition annotate (s : Bot) (p : string) : string :=
  let isTrusted := if bool_decide (p ∈ trustedPlayers s) then "✅" else "⚠️" in
  let isBlocked := if bool_decide (p ∈ blockedPlayers s) then "🚫" else "" in
  isTrusted +:+ isBlocked +:+ " **" +:+ p +:+ "**".

Definition playerList (s : Bot) : string :=
  String.concat ", " (annotate s <$> nearbyPlayers s).

Definition threats (s : Bot) : list string :=
  filter (λ p, p ∉ trustedPlayers s) (nearbyPlayers s).

Definition threatAlert (s : Bot) : effect :=
  SendSafetyAlert threatTitle
    ("**Untrusted player(s) detected:**" +:+ nl +:+ String.concat ", " (threats s)
     +:+ nl +:+ nl +:+ "**Action:** Bot automatically disconnected for safety!")
    "#ff0000" true.

Definition proximityAlert (s : Bot) : effect :=
  SendSafetyAlert proximityTitle
    ("**" +:+ pretty (Z.of_nat (length (nearbyPlayers s))) +:+ " player(s) detected:**"
     +:+ nl +:+ playerList s)
    "#ff9900" true.

Definition checkPlayerProximity (now : Z) : action := λ s,
  if safetyOff s then (s, [])
  else if now - lastProximityAlert s <? alertCooldown (safetyConfig s) then (s, [])
  else if (0 <? length (nearbyPlayers s))%nat then
    let s1 := set_lastProximityAlert now s in
    if autoDisconnectOnThreat (safetyConfig s) && (0 <? length (threats s))%nat
    then (s1, [threatAlert s; SetTimeout ThreatDisconnectTimer 1000])
    else (s1, [proximityAlert s])
  else (s, []).

Definition criticalAlert (s : Bot) : effect :=
  SendSafetyAlert criticalTitle
    ("**You took " +:+ pretty (lastHealth s - currentHealth s) +:+ " damage! Health: "
     +:+ pretty (currentHealth s) +:+ "/20**" +:+ nl +:+ nl
     +:+ "**Action:** Bot automatically disconnected for safety!")
    "#8B0000" true.

Definition damageAlert (s : Bot) : effect :=
  SendSafetyAlert damageTitle
    ("**You took " +:+ pretty (lastHealth s - currentHealth s) +:+ " damage!**" +:+ nl
     +:+ "Health decreased from " +:+ pretty (lastHealth s) +:+ " to "
     +:+ pretty (currentHealth s))
    "#ff0000" true.

Definition lowHealthAlert (s : Bot) : effect :=
  SendSafetyAlert lowHealthTitle
    ("**DANGER: Health is critically low at " +:+ pretty (currentHealth s) +:+ "/20!**"
     +:+ nl +:+ "Consider disconnecting immediately!")
    "#8B0000" true.

(** The tail of [checkHealth], from [this.lastHealth = this.currentHealth]. *)
Definition lowHealthCheck (now : Z) : action := λ s,
  let s1 := set_lastHealth (currentHealth s) s in
  if (currentHealth s1 <=? minHealth (safetyConfig s1))
     && (alertCooldown (safetyConfig s1) <? now - lastHealthAlert s1)
  then (set_lastHealthAlert now s1, [lowHealthAlert s1])
  else (s1, []).

Definition checkHealth (now : Z) : action := λ s,
  if safetyOff s then (s, [])
  else if currentHealth s <? lastHealth s then
    if currentHealth s <=? autoDisconnectHealth (safetyConfig s)
    then (s, [criticalAlert s; SetTimeout HealthDisconnectTimer 500])
    else ((lowHealthCheck now s).1, damageAlert s :: (lowHealthCheck now s).2)
  else lowHealthCheck now s.

(** ** Chat *)

Definition sendChatMessage (message : string) : action := λ s,
  match minecraftBot s with
  | Some h =>
      if isConnected s
      then (s, [ClientQueue h "command_request"
                  (if String.prefix "/" message then message else "/say " +:+ message)])
      else (s, [])
  | None => (s, [])
  end.

(** ** Session lifecycle *)

(** [attemptReconnect] up to its [await this.updateEmbed()]: the guards,
    the give-up branch (which only returns after its [await]) and the
    increment.  The flag tells whether the function is suspended at the
    [await] of the retry branch with code left to run. *)
Definition attemptReconnectBegin : Bot → Bot * list effect * bool := λ s,
  if negb (shouldJoin s) then (s, [], false)
  else if isConnecting s then (s, [], false)
  else if maxReconnectAttempts s <=? reconnectAttempts s
  then (set_shouldJoin false s, [UpdateEmbed], false)
  else (set_reconnectAttempts (reconnectAttempts s + 1) s, [UpdateEmbed], true).

(** [attemptReconnect] from that [await] on, in the state the session has
    when the [await] completes: the delay is computed from
    [this.reconnectAttempts] as it is then. *)
Definition attemptReconnectResume : action := λ s,
  (s, [SetTimeout ReconnectTimer (reconnectDelay s * Z.min (reconnectAttempts s) 5)]).

(** [attemptReconnect] when no other handler runs during its [await]: the
    two halves one after the other. *)
Definition attemptReconnect : action := λ s,
  if negb (shouldJoin s) then (s, [])
  else if isConnecting s then (s, [])
  else if maxReconnectAttempts s <=? reconnectAttempts s
  then (set_shouldJoin false s, [UpdateEmbed])
  else
    let s1 := set_reconnectAttempts (reconnectAttempts s + 1) s in
    (s1, [UpdateEmbed;
          SetTimeout ReconnectTimer (reconnectDelay s1 * Z.min (reconnectAttempts s1) 5)]).

(** [connectToMinecraft] up to its [await this.updateEmbed()]: the guard,
    the teardown of the prior client and [isConnecting = true].  The flag
    tells whether the function is suspended at the [await]. *)
Definition connectToMinecraftBegin : Bot → Bot * list effect * bool := λ s,
  if isConnecting s then (s, [], false)
  else (set_isConnecting true s, disconnectClient s ++ [UpdateEmbed], true).

(** [connectToMinecraft] from that [await] on, in the state the session has
    when the [await] completes.  [created] is what [createClient] does:
    [Some h] when it returns the new client [h], [None] when it throws; the
    [catch] block then reads [shouldJoin] and enters [attemptReconnect],
    which runs up to its own [await] (the flag tells whether it is
    suspended there). *)
Definition connectToMinecraftResume (created : option handle) :
    Bot → Bot * list effect * bool := λ s,
  match created with
  | Some h => (set_minecraftBot (Some h) s, [CreateClient; SetInterval 10000], false)
  | None =>
      let s2 := set_isConnecting false s in
      if shouldJoin s2
      then ((attemptReconnectBegin s2).1.1,
            CreateClient :: (attemptReconnectBegin s2).1.2,
            (attemptReconnectBegin s2).2)
      else (s2, [CreateClient; UpdateEmbed], false)
  end.

(** [connectToMinecraft] when no other handler runs during its [await]s.
    [created] is what [createClient] does: [Some h] when it returns the new
    client [h], [None] when it throws.  [setupMinecraftEvents] registers the
    handlers below and the 10 s safety interval. *)
Definition connectToMinecraft (created : option handle) : action := λ s,
  if isConnecting s then (s, [])
  else
    let s1 := set_isConnecting true s in
    let pre := disconnectClient s ++ [UpdateEmbed; CreateClient] in
    match created with
    | Some h => (set_minecraftBot (Some h) s1, pre ++ [SetInterval 10000])
    | None =>
        let s2 := set_isConnecting false s1 in
        if shouldJoin s2
        then ((attemptReconnect s2).1, pre ++ (attemptReconnect s2).2)
        else (s2, pre ++ [UpdateEmbed])
    end.

(** ** Handlers registered by [setupMinecraftEvents] *)

Definition resetWorld (s : Bot) : Bot :=
  set_currentCoords origin (set_currentWorld "Unknown" s).

Definition reconnectIfWanted : action := λ s,
  if shouldJoin s then attemptReconnect s else (s, []).

Definition onJoin : action := λ s,
  (set_reconnectAttempts 0 (set_isConnecting false (set_isConnected true s)),
   [UpdateDiscordActivity; UpdateEmbed; SetTimeout TpaTimer 5000]).

Definition onSpawn : action := λ s, (s, [UpdateDiscordActivity; UpdateEmbed]).

(** [v || 0] on a number. *)
Definition orZero (v : Q) : Q := if Qeq_bool v 0 then 0%Q else v.

(** [None] is a packet without a position. *)
Definition onMovePlayer (position : option Coords) : action := λ s,
  match position with
  | Some p =>
      (set_currentCoords
         (mkCoords (orZero (coord_x p)) (orZero (coord_y p)) (orZero (coord_z p))) s, [])
  | None => (s, [])
  end.

(** [None] is a packet without a [health] field. *)
Definition onSetHealth (now : Z) (health : option Z) : action := λ s,
  match health with
  | Some h => checkHealth now (set_currentHealth h (set_lastHealth (currentHealth s) s))
  | None => (s, [])
  end.

Definition onDisconnect : action := λ s,
  let s1 := resetWorld (set_minecraftBot None
              (set_isConnecting false (set_isConnected false s))) in
  ((reconnectIfWanted s1).1,
   [UpdateDiscordActivity; UpdateEmbed] ++ (reconnectIfWanted s1).2).

Definition onError : action := λ s,
  let s1 := resetWorld (set_isConnecting false (set_isConnected false s)) in
  ((reconnectIfWanted s1).1, [UpdateEmbed] ++ (reconnectIfWanted s1).2).

Definition onKick : action := λ s,
  let s1 := resetWorld (set_minecraftBot None
              (set_isConnecting false (set_isConnected false s))) in
  ((reconnectIfWanted s1).1, [UpdateEmbed] ++ (reconnectIfWanted s1).2).

(** [Set.prototype.add]. *)
Definition setAdd (p : string) (l : list string) : list string :=
  if bool_decide (p ∈ l) then l else l ++ [p].

Definition collectPlayers (usernames : list string) : list string :=
  foldl (λ acc u,
           if bool_decide (u ≠ "") && bool_decide (u ≠ CONFIG_username)
           then setAdd u acc else acc)
        [] usernames.

(** [None] is a packet without [records]; otherwise the usernames of the
    records, an absent username being the empty string. *)
Definition onPlayerList (now : Z) (records : option (list string)) : action := λ s,
  match records with
  | Some usernames =>
      checkPlayerProximity now (set_nearbyPlayers (collectPlayers usernames) s)
  | None => (s, [])
  end.

(** The callback of [setInterval(..., 10000)]. *)
Definition onSafetyInterval (now : Z) : action := λ s,
  if isConnected s && enabled (safetyConfig s)
  then (checkPlayerProximity now >> checkHealth now) s
  else (s, []).

(** The body shared by the two automatic-disconnect callbacks. *)
Definition autoDisconnect : action := λ s,
  (set_shouldJoin false s, disconnectClient s).

Definition onTimeout (cb : timer) (created : option handle) : action := λ s,
  match cb with
  | ReconnectTimer =>
      if shouldJoin s && negb (isConnected s) && negb (isConnecting s)
      then connectToMinecraft created s
      else (s, [])
  | ThreatDisconnectTimer => autoDisconnect s
  | HealthDisconnectTimer => autoDisconnect s
  | TpaTimer =>
      if bool_decide (is_Some (minecraftBot s)) && isConnected s
      then sendChatMessage "/tpa doggomc" s
      else (s, [])
  end.

(** ** Command surface: HTTP routes, control buttons, slash commands *)

Definition operatorConnect (created : option handle) : action := λ s,
  connectToMinecraft created (set_reconnectAttempts 0 (set_shouldJoin true s)).

Definition operatorDisconnect (s : Bot) : Bot * list effect :=
  let s1 := set_reconnectAttempts 0 (set_shouldJoin false s) in
  (match minecraftBot s1 with Some _ => set_minecraftBot None s1 | None => s1 end,
   disconnectClient s1).

Definition webConnect (created : option handle) : action := λ s,
  if isConnected s then (s, []) else operatorConnect created s.

Definition webDisconnect : action := λ s,
  ((operatorDisconnect s).1, (operatorDisconnect s).2 ++ [UpdateEmbed]).

Definition webChat (message : string) : action := λ s,
  if negb (isConnected s) || negb (bool_decide (is_Some (minecraftBot s))) then (s, [])
  else if bool_decide (message = "") then (s, [])
  else sendChatMessage message s.

Definition buttonConnect (created : option handle) : action := λ s,
  ((operatorConnect created s).1,
   UpdateDiscordActivity :: (operatorConnect created s).2).

Definition buttonDisconnect : action := λ s,
  ((operatorDisconnect s).1,
   (operatorDisconnect s).2 ++ [UpdateDiscordActivity; UpdateEmbed]).

Definition handleConnectCommand (created : option handle) : action := λ s,
  if isConnected s then (s, []) else operatorConnect created s.

Definition handleDisconnectCommand : action := λ s,
  if negb (isConnected s) then (s, [])
  else ((operatorDisconnect s).1, (operatorDisconnect s).2 ++ [UpdateEmbed]).

Definition handleMessageCommand (message : string) : action := λ s,
  if negb (isConnected s) || negb (bool_decide (is_Some (minecraftBot s))) then (s, [])
  else sendChatMessage message s.

Definition handleSafetyCommand (v : bool) : action := λ s,
  (set_safetyConfig (set_enabled v (safetyConfig s)) s, [UpdateEmbed]).

(** ** The event loop *)

Inductive event :=
  | EvJoin | EvSpawn
  | EvMovePlayer (position : option Coords)
  | EvSetHealth (health : option Z)
  | EvDisconnect | EvError | EvKick
  | EvPlayerList (records : option (list string))
  | EvSafetyInterval
  | EvTimeout (cb : timer) (created : option handle)
  | EvWebConnect (created : option handle)
  | EvWebDisconnect
  | EvWebChat (message : string)
  | EvButtonConnect (created : option handle)
  | EvButtonDisconnect
  | EvConnectCommand (created : option handle)
  | EvDisconnectCommand
  | EvMessageCommand (message : string)
  | EvSafetyCommand (v : bool).

(** One handler run, at clock reading [now]. *)
Definition step (now : Z) (e : event) : action :=
  match e with
  | EvJoin => onJoin
  | EvSpawn => onSpawn
  | EvMovePlayer p => onMovePlayer p
  | EvSetHealth h => onSetHealth now h
  | EvDisconnect => onDisconnect
  | EvError => onError
  | EvKick => onKick
  | EvPlayerList r => onPlayerList now r
  | EvSafetyInterval => onSafetyInterval now
  | EvTimeout cb c => onTimeout cb c
  | EvWebConnect c => webConnect c
  | EvWebDisconnect => webDisconnect
  | EvWebChat m => webChat m
  | EvButtonConnect c => buttonConnect c
  | EvButtonDisconnect => buttonDisconnect
  | EvConnectCommand c => handleConnectCommand c
  | EvDisconnectCommand => handleDisconnectCommand
  | EvMessageCommand m => handleMessageCommand m
  | EvSafetyCommand v => handleSafetyCommand v
  end.

(** A run of the loop: the final state and every outbound call, stamped
    with the clock reading of the handler that made it. *)
Fixpoint run (evs : list (Z * event)) (s : Bot) : Bot * list (Z * effect) :=
  match evs with
  | [] => (s, [])
  | (now, e) :: evs' =>
      let r := step now e s in
      ((run evs' r.1).1, (pair now <$> r.2) ++ (run evs' r.1).2)
  end.

(** * Vocabulary of the properties *)

(** ** Reading a trace *)

Definition isAlert (e : effect) : bool :=
  match e with SendSafetyAlert _ _ _ _ => true | _ => false end.

Definition isTimeout (e : effect) : bool :=
  match e with SetTimeout _ _ => true | _ => false end.

Definition titleOf (e : effect) : option string :=
  match e with SendSafetyAlert t _ _ _ => Some t | _ => None end.

(** The alerts handed to [sendSafetyAlert], in order. *)
Definition alerts (tr : list effect) : list effect := filter isAlert tr.

(** The callbacks handed to [setTimeout], in order. *)
Definition timeouts (tr : list effect) : list effect := filter isTimeout tr.

(** The alerts of a trace that carry a given title. *)
Definition titled (title : string) (tr : list effect) : list effect :=
  filter (λ e, titleOf e = Some title) tr.

(** The session is Connected: the join handshake completed and the
    connection handle is live (the data-model invariant of the session). *)
Definition Connected (s : Bot) : Prop :=
  isConnected s = true ∧ is_Some (minecraftBot s).

(** ** Reconnect logic *)

(** The calls by which the reconnect logic initiates a connect: creating a
    client, or arming the reconnect timer. *)
Definition isReconnectCall (e : effect) : bool :=
  match e with
  | CreateClient => true
  | SetTimeout ReconnectTimer _ => true
  | _ => false
  end.

Definition quiet (tr : list effect) : Prop :=
  Forall (λ e, isReconnectCall e = false) tr.

(** The events by which the operator asks for a connection. *)
Definition operatorConnects (e : event) : bool :=
  match e with
  | EvWebConnect _ | EvButtonConnect _ | EvConnectCommand _ => true
  | _ => false
  end.

Definition isDisconnectEvent (e : event) : bool :=
  match e with EvDisconnect | EvError | EvKick => true | _ => false end.

(** ** Alert categories *)

(** The alert categories: the proximity alerts (generic and threat) share
    [lastProximityAlert], the low-health warning has [lastHealthAlert], the
    damage and critical-health alerts have no timestamp. *)
Inductive category :=
  | ProximityCategory | LowHealthCategory | DamageCategory | CriticalCategory.

Definition categoryOf (e : effect) : option category :=
  match e with
  | SendSafetyAlert t _ _ _ =>
      if String.eqb t threatTitle || String.eqb t proximityTitle
      then Some ProximityCategory
      else if String.eqb t lowHealthTitle then Some LowHealthCategory
      else if String.eqb t damageTitle then Some DamageCategory
      else if String.eqb t criticalTitle then Some CriticalCategory
      else None
  | _ => None
  end.

(** Every emission of category [c] is at least [gap] before every later
    emission of category [c]. *)
Fixpoint separated (c : category) (gap : Z) (tr : list (Z * effect)) : Prop :=
  match tr with
  | [] => True
  | te1 :: tr' =>
      (categoryOf te1.2 = Some c →
       Forall (λ te2, categoryOf te2.2 = Some c → gap ≤ te2.1 - te1.1) tr')
      ∧ separated c gap tr'
  end.

Definition silent (tr : list effect) : Prop := Forall (λ x, isAlert x = false) tr.

(** ** Worked sessions *)

(** The worked example of the proximity evaluator: "A" and "B" nearby,
    "A" trusted, safety enabled, session Connected. *)
Definition proximityExample (autoDisconnect : bool) : Bot := {|
  minecraftBot := Some 1%nat;
  isConnected := true;
  isConnecting := false;
  shouldJoin := true;
  currentWorld := "Unknown";
  currentCoords := origin;
  reconnectAttempts := 0;
  maxReconnectAttempts := 10000;
  reconnectDelay := 15000;
  currentHealth := 20;
  lastHealth := 20;
  nearbyPlayers := ["A"; "B"];
  safetyConfig := mkSafetyConfig true 50 10 30000 autoDisconnect 6;
  lastHealthAlert := 0;
  lastProximityAlert := 0;
  trustedPlayers := {["A"]};
  blockedPlayers := ∅
|}.

(** The bot gives up at the ten-thousandth failure; three more disconnects
    change nothing. *)
Definition exhaustedBot : Bot :=
  set_reconnectAttempts 10000 (set_shouldJoin true (initial ∅ ∅)).

(** The operator connects, the server accepts, safety is switched on. *)
Definition joinedBot : Bot :=
  (run [(0, EvButtonConnect (Some 1%nat)); (1, EvJoin); (2, EvSafetyCommand true)]
       (initial ∅ ∅)).1.

(** [s] as the health evaluator sees it when a [set_health] packet takes
    the health from [previous] to [new]. *)
Definition withHealth (previous new : Z) (s : Bot) : Bot :=
  set_currentHealth new (set_lastHealth previous s).

(** Two [set_health] packets with health 5 on the joined session: the
    first takes the critical branch, the second finds the health unchanged
    and sends the low-health warning. *)
Definition steadyLowHealth : Bot :=
  (run [(100000, EvSetHealth (Some 5)); (100200, EvSetHealth (Some 5))] joinedBot).1.

(** Three player lists with "Steve" in them on the joined session: the
    second, half a second after the first, is suppressed. *)
Definition steveVisits : list (Z * event) :=
  [(100000, EvPlayerList (Some ["Steve"]));
   (100500, EvPlayerList (Some ["Steve"]));
   (140000, EvPlayerList (Some ["Steve"]))].

(** ** Invocations interleaved with other handlers *)

(** An invocation of [attemptReconnect] during whose [await] the handlers of
    [during] run: the state it leaves and the calls it made itself. *)
Definition attemptReconnectInterleaved (during : list (Z * event)) : action := λ s,
  let b := attemptReconnectBegin s in
  if b.2
  then
    let m := (run during b.1.1).1 in
    ((attemptReconnectResume m).1, b.1.2 ++ (attemptReconnectResume m).2)
  else b.1.

(** An invocation of [connectToMinecraft] that no handler interrupts. *)
Definition connectToMinecraftUninterrupted (created : option handle) : action := λ s,
  let b := connectToMinecraftBegin s in
  if b.2
  then
    let r := connectToMinecraftResume created b.1.1 in
    if r.2
    then ((attemptReconnectResume r.1.1).1,
          b.1.2 ++ r.1.2 ++ (attemptReconnectResume r.1.1).2)
    else (r.1.1, b.1.2 ++ r.1.2)
  else b.1.

(** ** Statements of the specification that the code does not satisfy *)

(** C2 as the specification states it: every invocation past the guards
    arms its timer with [reconnectDelay * min(n + 1, 5)], [n] being the
    counter it found. *)
Definition backoffAlways (during : list (Z * event)) (s : Bot) : Prop :=
  shouldJoin s = true → isConnecting s = false →
  reconnectAttempts s < maxReconnectAttempts s →
  (attemptReconnectInterleaved during s).2
  = [UpdateEmbed;
     SetTimeout ReconnectTimer (reconnectDelay s * Z.min (reconnectAttempts s + 1) 5)].

(** C4 as the specification states it: whenever health decreased, exactly
    one "damage taken" alert. *)
Definition damageAlways (now : Z) (s : Bot) : Prop :=
  enabled (safetyConfig s) = true → Connected s →
  currentHealth s < lastHealth s →
  titled damageTitle (checkHealth now s).2 = [damageAlert s].

(** C5 as the specification states it: whenever the health is at or below
    [autoDisconnectHealth], exactly one critical alert and exactly one
    scheduled disconnect. *)
Definition criticalAlways (now : Z) (s : Bot) : Prop :=
  enabled (safetyConfig s) = true → Connected s →
  currentHealth s ≤ autoDisconnectHealth (safetyConfig s) →
  titled criticalTitle (checkHealth now s).2 = [criticalAlert s]
  ∧ timeouts (checkHealth now s).2 = [SetTimeout HealthDisconnectTimer 500].

(** C7 as the specification states it: [connect()] does nothing while the
    session is Connecting or Connected. *)
Definition connectIdempotent (created : option handle) (s : Bot) : Prop :=
  isConnecting s = true ∨ isConnected s = true →
  connectToMinecraft created s = (s, []).

(** C6 as the specification states it: in every run, any two alerts of one
    category are at least [alertCooldown] apart. *)
Definition throttledAll (evs : list (Z * event)) (s : Bot) : Prop :=
  ∀ c, separated c (alertCooldown (safetyConfig s)) (run evs s).2.

(** ** Invariants and footprints of the event loop *)

(** The reconnect counter stays within its budget. *)
Definition budgetOk (s : Bot) : Prop :=
  0 ≤ reconnectAttempts s ≤ maxReconnectAttempts s.

(** What the handlers only read: the reconnect parameters, the trust and
    block lists and the safety thresholds. *)
Definition settings (s : Bot) :
    Z * Z * gset string * gset string * (Z * Z * Z * bool * Z) :=
  (maxReconnectAttempts s, reconnectDelay s, trustedPlayers s, blockedPlayers s,
   (proximityRadius (safetyConfig s), minHealth (safetyConfig s),
    alertCooldown (safetyConfig s), autoDisconnectOnThreat (safetyConfig s),
    autoDisconnectHealth (safetyConfig s))).

(** The [/safety enabled:true] command. *)
Definition enablesSafety (e : event) : bool :=
  match e with EvSafetyCommand true => true | _ => false end.

(** The calls of the safety monitor: an alert, or one of its two
    automatic-disconnect timers. *)
Definition isSafetyCall (e : effect) : bool :=
  match e with
  | SendSafetyAlert _ _ _ _ => true
  | SetTimeout ThreatDisconnectTimer _ => true
  | SetTimeout HealthDisconnectTimer _ => true
  | _ => false
  end.

(** A packet queued to the game client is a [command_request] whose command
    starts with a slash. *)
Definition slashCommand (e : effect) : Prop :=
  match e with
  | ClientQueue _ name command =>
      name = "command_request" ∧ String.prefix "/" command = true
  | _ => True
  end.


(** [s] with another block list. *)
Definition withBlocked (blocked : gset string) (s : Bot) : Bot :=
  Build_Bot (minecraftBot s) (isConnected s) (isConnecting s) (shouldJoin s)
    (currentWorld s) (currentCoords s) (reconnectAttempts s)
    (maxReconnectAttempts s) (reconnectDelay s) (currentHealth s)
    (lastHealth s) (nearbyPlayers s) (safetyConfig s) (lastHealthAlert s)
    (lastProximityAlert s) (trustedPlayers s) blocked.

(** The delay of an armed reconnect timer lies between [lo] and [hi]. *)
Definition reconnectDelayWithin (lo hi : Z) (e : effect) : Prop :=
  match e with
  | SetTimeout ReconnectTimer d => lo ≤ d ≤ hi
  | _ => True
  end.

(** Nine disconnects in a row on a session that wants to stay joined: the
    delays grow by 15 s up to 75 s and stay there. *)
Definition nineDisconnects : list (Z * event) :=
  (λ n, (n, EvDisconnect)) <$> [1; 2; 3; 4; 5; 6; 7; 8; 9].



(** * Properties *)

Lemma safetyOff_false s :
  enabled (safetyConfig s) = true → Connected s → safetyOff s = false.
Proof.
  intros He [Hc Hb]. unfold safetyOff.
  rewrite He, Hc, (bool_decide_eq_true_2 _ Hb). reflexivity.
Qed.

Lemma length_pos_ltb {A} (l : list A) : l ≠ [] → (0 <? length l)%nat = true.
Proof. destruct l; [done | reflexivity]. Qed.

(** ** Proximity evaluator *)

Lemma prefix_append (s t : string) : String.prefix s (s +:+ t) = true.
Proof.
  induction s as [|a s IH]; simpl.
  - destruct t; reflexivity.
  - destruct (Ascii.ascii_dec a a); [exact IH | congruence].
Qed.

Lemma annotate_trusted s p :
  p ∈ trustedPlayers s → String.prefix "✅" (annotate s p) = true.
Proof.
  intros H. unfold annotate. rewrite (bool_decide_eq_true_2 _ H).
  apply prefix_append.
Qed.

Lemma annotate_untrusted s p :
  p ∉ trustedPlayers s → String.prefix "⚠️" (annotate s p) = true.
Proof.
  intros H. unfold annotate. rewrite (bool_decide_eq_false_2 _ H).
  apply prefix_append.
Qed.

Lemma playerList_entries s p :
  p ∈ nearbyPlayers s → annotate s p ∈ (annotate s <$> nearbyPlayers s).
Proof. intros H. by apply list_elem_of_fmap_2. Qed.

Lemma threats_nonempty s :
  threats s ≠ [] ↔ ∃ p, p ∈ nearbyPlayers s ∧ p ∉ trustedPlayers s.
Proof.
  unfold threats. split.
  - intros Hne.
    destruct (filter (λ p, p ∉ trustedPlayers s) (nearbyPlayers s)) as [|p l] eqn:E;
      [done|].
    assert (p ∈ filter (λ p, p ∉ trustedPlayers s) (nearbyPlayers s)) as Hp
      by (rewrite E; apply elem_of_cons; by left).
    apply list_elem_of_filter in Hp as [Hu Hn]. by exists p.
  - intros (p & Hn & Hu) Hnil.
    assert (p ∈ filter (λ p, p ∉ trustedPlayers s) (nearbyPlayers s)) as Hp
      by (by apply list_elem_of_filter).
    rewrite Hnil in Hp. by apply elem_of_nil in Hp.
Qed.

(** C1.  A proximity evaluation with safety enabled, the session Connected,
    the cooldown elapsed and somebody nearby makes exactly one call to
    [sendSafetyAlert].  With [autoDisconnectOnThreat] and a nearby player
    who is not in the trusted set it is the urgent "threat detected" alert,
    naming the nearby players that are not trusted, followed by one
    scheduled automatic disconnect (whose callback clears [shouldJoin] and
    disconnects the client); no generic alert is sent.  Otherwise it is the
    generic "player proximity" alert, whose body joins one entry per nearby
    player, marked trusted or not and blocked or not; no threat alert is
    sent and nothing is scheduled. *)
Theorem checkPlayerProximity_dispatch (now : Z) (s : Bot) :
  enabled (safetyConfig s) = true →
  Connected s →
  alertCooldown (safetyConfig s) ≤ now - lastProximityAlert s →
  nearbyPlayers s ≠ [] →
  let tr := (checkPlayerProximity now s).2 in
  let untrusted := filter (λ p, p ∉ trustedPlayers s) (nearbyPlayers s) in
  let entry := λ p : string,
    (if bool_decide (p ∈ trustedPlayers s) then "✅" else "⚠️")
    +:+ (if bool_decide (p ∈ blockedPlayers s) then "🚫" else "")
    +:+ " **" +:+ p +:+ "**" in
  let threatened :=
    autoDisconnectOnThreat (safetyConfig s) = true
    ∧ ∃ p, p ∈ nearbyPlayers s ∧ p ∉ trustedPlayers s in
  (threatened →
     tr = [SendSafetyAlert "🚨 THREAT DETECTED - AUTO DISCONNECT"
             ("**Untrusted player(s) detected:**" +:+ nl
              +:+ String.concat ", " untrusted +:+ nl +:+ nl
              +:+ "**Action:** Bot automatically disconnected for safety!")
             "#ff0000" true;
           SetTimeout ThreatDisconnectTimer 1000]
     ∧ length (alerts tr) = 1%nat
     ∧ titled "⚠️ Player Proximity Alert" tr = []
     ∧ length (timeouts tr) = 1%nat
     ∧ (∀ p, p ∈ untrusted ↔ p ∈ nearbyPlayers s ∧ p ∉ trustedPlayers s)
     ∧ (∀ c s', onTimeout ThreatDisconnectTimer c s'
                = (set_shouldJoin false s',
                   match minecraftBot s' with
                   | Some h => [ClientDisconnect h]
                   | None => []
                   end)))
  ∧ (¬ threatened →
     tr = [SendSafetyAlert "⚠️ Player Proximity Alert"
             ("**" +:+ pretty (Z.of_nat (length (nearbyPlayers s)))
              +:+ " player(s) detected:**" +:+ nl
              +:+ String.concat ", " (entry <$> nearbyPlayers s))
             "#ff9900" true]
     ∧ length (alerts tr) = 1%nat
     ∧ titled "🚨 THREAT DETECTED - AUTO DISCONNECT" tr = []
     ∧ timeouts tr = []
     ∧ (∀ p, p ∈ nearbyPlayers s →
          entry p ∈ (entry <$> nearbyPlayers s)
          ∧ String.prefix (if bool_decide (p ∈ trustedPlayers s) then "✅" else "⚠️")
              (entry p) = true)).
Proof.
  intros He Hc Hcool Hnear tr untrusted entry threatened.
  subst tr untrusted threatened. unfold checkPlayerProximity.
  rewrite (safetyOff_false s He Hc).
  replace (now - lastProximityAlert s <? alertCooldown (safetyConfig s)) with false
    by (symmetry; apply Z.ltb_ge; lia).
  rewrite (length_pos_ltb _ Hnear). split.
  - intros [Ha Hex].
    assert (threats s ≠ []) as Ht by (by apply threats_nonempty).
    rewrite Ha, (length_pos_ltb _ Ht). simpl.
    split; [reflexivity|]. split; [reflexivity|]. split; [reflexivity|].
    split; [reflexivity|]. split; [|reflexivity].
    intros p. rewrite list_elem_of_filter. tauto.
  - intros Hno.
    assert (autoDisconnectOnThreat (safetyConfig s)
            && (0 <? length (threats s))%nat = false) as ->.
    { destruct (autoDisconnectOnThreat (safetyConfig s)); [|reflexivity].
      destruct (threats s) eqn:E; [reflexivity|].
      exfalso. apply Hno. split; [reflexivity|].
      apply threats_nonempty. congruence. }
    simpl. split; [reflexivity|]. split; [reflexivity|]. split; [reflexivity|].
    split; [reflexivity|].
    intros p Hp. split.
    + by apply (list_elem_of_fmap_2 entry).
    + change (entry p) with (annotate s p). case_bool_decide.
      * by apply annotate_trusted.
      * by apply annotate_untrusted.
Qed.

Lemma checkPlayerProximity_dispatch_witness :
  (checkPlayerProximity 30000 (proximityExample true)).2
  = [SendSafetyAlert "🚨 THREAT DETECTED - AUTO DISCONNECT"
       ("**Untrusted player(s) detected:**" +:+ nl +:+ "B" +:+ nl +:+ nl
        +:+ "**Action:** Bot automatically disconnected for safety!")
       "#ff0000" true;
     SetTimeout ThreatDisconnectTimer 1000]
  ∧ (checkPlayerProximity 30000 (proximityExample false)).2
    = [SendSafetyAlert "⚠️ Player Proximity Alert"
         ("**2 player(s) detected:**" +:+ nl +:+ "✅ **A**, ⚠️ **B**")
         "#ff9900" true].
Proof.
  assert (∀ a, Connected (proximityExample a)) as Hc
    by (intros a; split; [reflexivity | eexists; reflexivity]).
  assert (∀ a, alertCooldown (safetyConfig (proximityExample a))
               ≤ 30000 - lastProximityAlert (proximityExample a)) as Hcool
    by (intros a; simpl; lia).
  assert (∀ a, nearbyPlayers (proximityExample a) ≠ []) as Hnear by discriminate.
  assert ("B" ∈ nearbyPlayers (proximityExample true)
          ∧ "B" ∉ trustedPlayers (proximityExample true)) as HB.
  { split.
    - apply elem_of_cons. right. apply elem_of_cons. by left.
    - change ("B" ∉ ({["A"]} : gset string)). intros H.
      apply elem_of_singleton in H. discriminate H. }
  split.
  - destruct (checkPlayerProximity_dispatch 30000 (proximityExample true)
                eq_refl (Hc true) (Hcool true) (Hnear true)) as [Hurgent _].
    destruct (Hurgent (conj eq_refl (ex_intro _ "B" HB))) as (Htr & _).
    rewrite Htr. vm_compute. reflexivity.
  - destruct (checkPlayerProximity_dispatch 30000 (proximityExample false)
                eq_refl (Hc false) (Hcool false) (Hnear false)) as [_ Hgeneric].
    assert (¬ (autoDisconnectOnThreat (safetyConfig (proximityExample false)) = true
               ∧ ∃ p, p ∈ nearbyPlayers (proximityExample false)
                      ∧ p ∉ trustedPlayers (proximityExample false))) as Hno
      by (intros [H _]; discriminate H).
    destruct (Hgeneric Hno) as (Htr & _).
    rewrite Htr. vm_compute. reflexivity.
Defined.

Example proximity_threat_example :
  (checkPlayerProximity 30000 (proximityExample true)).2
  = [SendSafetyAlert "🚨 THREAT DETECTED - AUTO DISCONNECT"
       ("**Untrusted player(s) detected:**" +:+ nl +:+ "B" +:+ nl +:+ nl
        +:+ "**Action:** Bot automatically disconnected for safety!")
       "#ff0000" true;
     SetTimeout ThreatDisconnectTimer 1000].
Proof. vm_compute. reflexivity. Qed.

Example proximity_generic_example :
  (checkPlayerProximity 30000 (proximityExample false)).2
  = [SendSafetyAlert "⚠️ Player Proximity Alert"
       ("**2 player(s) detected:**" +:+ nl +:+ "✅ **A**, ⚠️ **B**")
       "#ff9900" true].
Proof. vm_compute. reflexivity. Qed.

(** ** Reconnect logic *)

(** Closes [e ∉ l] for an explicit list whose members differ from [e] by
    their constructor. *)
Ltac not_in_trace :=
  let Hin := fresh "Hin" in
  intros Hin;
  repeat (apply elem_of_cons in Hin as [Hin | Hin]; [discriminate Hin |]);
  by apply elem_of_nil in Hin.

Example attemptReconnect_capped :
  let s := set_reconnectAttempts 7 (set_shouldJoin true (initial ∅ ∅)) in
  (attemptReconnect s).2 = [UpdateEmbed; SetTimeout ReconnectTimer 75000].
Proof. reflexivity. Qed.

Lemma quiet_app tr1 tr2 : quiet tr1 → quiet tr2 → quiet (tr1 ++ tr2).
Proof. unfold quiet. intros. by apply Forall_app. Qed.

Lemma quiet_disconnectClient s : quiet (disconnectClient s).
Proof. unfold quiet, disconnectClient. destruct (minecraftBot s); by repeat constructor. Qed.

Lemma checkPlayerProximity_shouldJoin now s :
  shouldJoin (checkPlayerProximity now s).1 = shouldJoin s
  ∧ quiet (checkPlayerProximity now s).2.
Proof.
  unfold checkPlayerProximity, quiet.
  repeat case_match; simpl; split; try reflexivity; by repeat constructor.
Qed.

Lemma checkHealth_shouldJoin now s :
  shouldJoin (checkHealth now s).1 = shouldJoin s ∧ quiet (checkHealth now s).2.
Proof.
  unfold checkHealth, lowHealthCheck, quiet.
  repeat case_match; simpl; split; try reflexivity; by repeat constructor.
Qed.

Lemma sendChatMessage_state m s :
  (sendChatMessage m s).1 = s ∧ quiet (sendChatMessage m s).2.
Proof.
  unfold sendChatMessage, quiet.
  repeat case_match; simpl; split; try reflexivity; by repeat constructor.
Qed.

Lemma operatorDisconnect_shouldJoin s :
  shouldJoin (operatorDisconnect s).1 = false ∧ quiet (operatorDisconnect s).2.
Proof.
  unfold operatorDisconnect. split.
  - simpl. by destruct (minecraftBot s).
  - apply quiet_disconnectClient.
Qed.

(** With [shouldJoin] cleared, no handler other than an operator connect
    sets it again, creates a client or arms the reconnect timer. *)
Lemma step_stays_down now e s :
  operatorConnects e = false →
  shouldJoin s = false →
  shouldJoin (step now e s).1 = false ∧ quiet (step now e s).2.
Proof.
  intros Hop Hj. destruct e; try discriminate Hop; simpl.
  - unfold onJoin, quiet. simpl. split; [exact Hj | by repeat constructor].
  - unfold onSpawn, quiet. simpl. split; [exact Hj | by repeat constructor].
  - unfold onMovePlayer, quiet. destruct position; simpl; split; auto.
  - unfold onSetHealth. destruct health; simpl; [|split; [exact Hj | constructor]].
    destruct (checkHealth_shouldJoin now
                (set_currentHealth z (set_lastHealth (currentHealth s) s))) as [-> Hq].
    split; [exact Hj | exact Hq].
  - unfold onDisconnect, reconnectIfWanted, quiet. simpl. rewrite Hj. simpl.
    split; [exact Hj | by repeat constructor].
  - unfold onError, reconnectIfWanted, quiet. simpl. rewrite Hj. simpl.
    split; [exact Hj | by repeat constructor].
  - unfold onKick, reconnectIfWanted, quiet. simpl. rewrite Hj. simpl.
    split; [exact Hj | by repeat constructor].
  - unfold onPlayerList. destruct records; simpl; [|split; [exact Hj | constructor]].
    destruct (checkPlayerProximity_shouldJoin now
                (set_nearbyPlayers (collectPlayers l) s)) as [-> Hq].
    split; [exact Hj | exact Hq].
  - unfold onSafetyInterval, andThen.
    destruct (isConnected s && enabled (safetyConfig s)); simpl;
      [|split; [exact Hj | constructor]].
    destruct (checkPlayerProximity_shouldJoin now s) as [Hp Hq].
    destruct (checkHealth_shouldJoin now (checkPlayerProximity now s).1) as [Hh Hq'].
    split; [congruence | by apply quiet_app].
  - unfold onTimeout, autoDisconnect. destruct cb; simpl.
    + rewrite Hj. simpl. split; [exact Hj | constructor].
    + split; [reflexivity | apply quiet_disconnectClient].
    + split; [reflexivity | apply quiet_disconnectClient].
    + destruct (bool_decide (is_Some (minecraftBot s)) && isConnected s);
        [|split; [exact Hj | constructor]].
      destruct (sendChatMessage_state "/tpa doggomc" s) as [-> Hq]. by split.
  - unfold webDisconnect. simpl.
    destruct (operatorDisconnect_shouldJoin s) as [Hs Hq].
    split; [exact Hs | apply quiet_app; [exact Hq | by repeat constructor]].
  - unfold webChat. repeat case_match; try (split; [exact Hj | constructor]).
    destruct (sendChatMessage_state message s) as [-> Hq]. by split.
  - unfold buttonDisconnect. simpl.
    destruct (operatorDisconnect_shouldJoin s) as [Hs Hq].
    split; [exact Hs | apply quiet_app; [exact Hq | by repeat constructor]].
  - unfold handleDisconnectCommand. case_match; [split; [exact Hj | constructor]|].
    simpl. destruct (operatorDisconnect_shouldJoin s) as [Hs Hq].
    split; [exact Hs | apply quiet_app; [exact Hq | by repeat constructor]].
  - unfold handleMessageCommand. case_match; [split; [exact Hj | constructor]|].
    destruct (sendChatMessage_state message s) as [-> Hq]. by split.
  - unfold handleSafetyCommand, quiet. simpl. split; [exact Hj | by repeat constructor].
Qed.

Lemma run_stays_down evs s :
  Forall (λ te, operatorConnects te.2 = false) evs →
  shouldJoin s = false →
  shouldJoin (run evs s).1 = false
  ∧ Forall (λ te, isReconnectCall te.2 = false) (run evs s).2.
Proof.
  intros Hevs. revert s. induction Hevs as [|[now e] evs He _ IH]; intros s Hj.
  - simpl. split; [exact Hj | constructor].
  - simpl in *. destruct (step_stays_down now e s He Hj) as [Hj1 Hq].
    destruct (IH _ Hj1) as [Hj2 Hq2]. split; [exact Hj2|].
    apply Forall_app. split; [|exact Hq2].
    apply Forall_fmap. exact Hq.
Qed.

Lemma attemptReconnect_exhausted s :
  maxReconnectAttempts s ≤ reconnectAttempts s →
  (isConnecting s = false → shouldJoin (attemptReconnect s).1 = false)
  ∧ reconnectAttempts (attemptReconnect s).1 = reconnectAttempts s
  ∧ quiet (attemptReconnect s).2.
Proof.
  intros Hmax. unfold attemptReconnect, quiet.
  replace (maxReconnectAttempts s <=? reconnectAttempts s) with true
    by (symmetry; apply Z.leb_le; lia).
  destruct (shouldJoin s) eqn:Hj, (isConnecting s) eqn:Hc; simpl;
    repeat split; try done; by repeat constructor.
Qed.

(** A disconnect, error or kick with the budget spent gives up. *)
Lemma disconnect_exhausted now e s :
  isDisconnectEvent e = true →
  maxReconnectAttempts s ≤ reconnectAttempts s →
  shouldJoin (step now e s).1 = false
  ∧ reconnectAttempts (step now e s).1 = reconnectAttempts s
  ∧ maxReconnectAttempts (step now e s).1 = maxReconnectAttempts s
  ∧ quiet (step now e s).2.
Proof.
  intros He Hmax.
  destruct e; try discriminate He; simpl;
    unfold onDisconnect, onError, onKick, reconnectIfWanted, attemptReconnect, quiet;
    simpl;
    replace (maxReconnectAttempts s <=? reconnectAttempts s) with true
      by (symmetry; apply Z.leb_le; lia);
    destruct (shouldJoin s) eqn:Hj; simpl; repeat split; try done;
    by repeat constructor.
Qed.

Lemma run_disconnects_exhausted evs s :
  Forall (λ te, isDisconnectEvent te.2 = true) evs →
  maxReconnectAttempts s ≤ reconnectAttempts s →
  (evs ≠ [] → shouldJoin (run evs s).1 = false)
  ∧ reconnectAttempts (run evs s).1 = reconnectAttempts s
  ∧ Forall (λ te, isReconnectCall te.2 = false) (run evs s).2.
Proof.
  intros Hevs. revert s. induction Hevs as [|[now e] evs He Hevs IH]; intros s Hmax.
  - simpl. repeat split; [done | constructor].
  - simpl in *.
    destruct (disconnect_exhausted now e s He Hmax) as (Hj & Ha & Hm & Hq).
    destruct (IH (step now e s).1) as (Hj' & Ha' & Hq'); [lia|].
    split; [|split].
    + intros _. destruct evs as [|te evs']; [exact Hj | by apply Hj'].
    + lia.
    + apply Forall_app. split; [by apply Forall_fmap | exact Hq'].
Qed.

(** C3.  With the budget spent ([reconnectAttempts >= maxReconnectAttempts])
    [attemptReconnect], invoked with no connect in flight as every call
    site does, leaves [shouldJoin] false and the counter as it was, creates
    no client and arms no timer.  From the state it leaves, no run of
    events without an operator connect ever creates a client or arms the
    reconnect timer, and [shouldJoin] stays false.  The same holds for any
    number of disconnect, error and kick events arriving in the exhausted
    state itself. *)
Theorem reconnect_budget_exhausted (s : Bot) :
  maxReconnectAttempts s ≤ reconnectAttempts s →
  (isConnecting s = false → shouldJoin (attemptReconnect s).1 = false)
  ∧ reconnectAttempts (attemptReconnect s).1 = reconnectAttempts s
  ∧ quiet (attemptReconnect s).2
  ∧ (∀ evs,
       isConnecting s = false →
       Forall (λ te, operatorConnects te.2 = false) evs →
       shouldJoin (run evs (attemptReconnect s).1).1 = false
       ∧ Forall (λ te, isReconnectCall te.2 = false) (run evs (attemptReconnect s).1).2)
  ∧ (∀ evs,
       Forall (λ te, isDisconnectEvent te.2 = true) evs →
       (evs ≠ [] → shouldJoin (run evs s).1 = false)
       ∧ reconnectAttempts (run evs s).1 = reconnectAttempts s
       ∧ Forall (λ te, isReconnectCall te.2 = false) (run evs s).2).
Proof.
  intros Hmax.
  destruct (attemptReconnect_exhausted s Hmax) as (Hj & Ha & Hq).
  split; [exact Hj|]. split; [exact Ha|]. split; [exact Hq|]. split.
  - intros evs Hc Hevs. apply run_stays_down; [exact Hevs | by apply Hj].
  - intros evs Hevs. by apply run_disconnects_exhausted.
Qed.

Lemma reconnect_budget_exhausted_witness :
  attemptReconnect exhaustedBot = (set_shouldJoin false exhaustedBot, [UpdateEmbed])
  ∧ (run [(1, EvDisconnect); (2, EvKick); (3, EvError)] exhaustedBot).2
    = [(1, UpdateDiscordActivity); (1, UpdateEmbed); (1, UpdateEmbed);
       (2, UpdateEmbed); (3, UpdateEmbed)]
  ∧ shouldJoin (attemptReconnect exhaustedBot).1 = false.
Proof.
  assert (maxReconnectAttempts exhaustedBot ≤ reconnectAttempts exhaustedBot) as Hmax
    by (simpl; lia).
  split; [reflexivity|]. split; [reflexivity|].
  exact (proj1 (reconnect_budget_exhausted exhaustedBot Hmax) eq_refl).
Defined.

(** ** Health evaluator *)

Lemma lowHealthCheck_shape now s :
  (lowHealthCheck now s).2 = [] ∨
  (lowHealthCheck now s).2 = [lowHealthAlert (set_lastHealth (currentHealth s) s)].
Proof. unfold lowHealthCheck. case_match; simpl; auto. Qed.

Lemma lowHealthCheck_lastHealth now s :
  lastHealth (lowHealthCheck now s).1 = currentHealth s.
Proof. unfold lowHealthCheck. case_match; reflexivity. Qed.

(** The paths of [checkHealth] past its guard. *)
Lemma checkHealth_paths now s :
  enabled (safetyConfig s) = true → Connected s →
  (currentHealth s < lastHealth s ∧ currentHealth s ≤ autoDisconnectHealth (safetyConfig s)
   ∧ checkHealth now s = (s, [criticalAlert s; SetTimeout HealthDisconnectTimer 500]))
  ∨ (currentHealth s < lastHealth s ∧ autoDisconnectHealth (safetyConfig s) < currentHealth s
     ∧ checkHealth now s
       = ((lowHealthCheck now s).1, damageAlert s :: (lowHealthCheck now s).2))
  ∨ (lastHealth s ≤ currentHealth s ∧ checkHealth now s = lowHealthCheck now s).
Proof.
  intros He Hc. unfold checkHealth. rewrite (safetyOff_false s He Hc).
  destruct (Z.ltb_spec (currentHealth s) (lastHealth s)) as [Hlt|Hge].
  - destruct (Z.leb_spec (currentHealth s) (autoDisconnectHealth (safetyConfig s))).
    + left. done.
    + right. left. done.
  - right. right. done.
Qed.

(** A drop from 20 to 5, at or below [autoDisconnectHealth = 6], takes the
    critical branch, which returns before the "damage taken" alert. *)
Lemma damageAlways_fails_at_critical : ¬ damageAlways 100000 (withHealth 20 5 joinedBot).
Proof.
  intros H.
  assert (Connected (withHealth 20 5 joinedBot)) as Hc
    by (split; [reflexivity | eexists; reflexivity]).
  specialize (H eq_refl Hc eq_refl). vm_compute in H. discriminate H.
Qed.

(** C4, amended.  When health decreased and the new health is above
    [autoDisconnectHealth], the evaluation emits exactly one "damage taken"
    alert, carrying the previous health minus the new health, whatever the
    clock and the cooldown timestamps are; it is the first call of the
    evaluation. *)
Theorem checkHealth_damage (now : Z) (s : Bot) :
  enabled (safetyConfig s) = true →
  Connected s →
  currentHealth s < lastHealth s →
  autoDisconnectHealth (safetyConfig s) < currentHealth s →
  titled damageTitle (checkHealth now s).2 = [damageAlert s]
  ∧ (checkHealth now s).2 = damageAlert s :: (lowHealthCheck now s).2
  ∧ timeouts (checkHealth now s).2 = []
  ∧ damageAlert s
    = SendSafetyAlert damageTitle
        ("**You took " +:+ pretty (lastHealth s - currentHealth s) +:+ " damage!**" +:+ nl
         +:+ "Health decreased from " +:+ pretty (lastHealth s) +:+ " to "
         +:+ pretty (currentHealth s))
        "#ff0000" true.
Proof.
  intros He Hc Hlt Hadh.
  destruct (checkHealth_paths now s He Hc) as [(_ & Hle & _) | [(_ & _ & Heq) | (Hge & _)]];
    [lia | | lia].
  rewrite Heq. simpl.
  destruct (lowHealthCheck_shape now s) as [-> | ->];
    repeat split; reflexivity.
Qed.

Lemma checkHealth_damage_witness :
  (checkHealth 100000 (withHealth 20 14 joinedBot)).2
  = [SendSafetyAlert "🩸 Damage Taken"
       ("**You took 6 damage!**" +:+ nl +:+ "Health decreased from 20 to 14")
       "#ff0000" true].
Proof.
  assert (Connected (withHealth 20 14 joinedBot)) as Hc
    by (split; [reflexivity | eexists; reflexivity]).
  assert (currentHealth (withHealth 20 14 joinedBot) < lastHealth (withHealth 20 14 joinedBot))
    as Hlt by (vm_compute; reflexivity).
  assert (autoDisconnectHealth (safetyConfig (withHealth 20 14 joinedBot))
          < currentHealth (withHealth 20 14 joinedBot)) as Hadh by (vm_compute; reflexivity).
  destruct (checkHealth_damage 100000 (withHealth 20 14 joinedBot) eq_refl Hc Hlt Hadh)
    as (_ & Htr & _).
  rewrite Htr. vm_compute. reflexivity.
Defined.

Example set_health_20_to_14 :
  (step 100000 (EvSetHealth (Some 14)) joinedBot).2
  = [SendSafetyAlert "🩸 Damage Taken"
       ("**You took 6 damage!**" +:+ nl +:+ "Health decreased from 20 to 14")
       "#ff0000" true].
Proof. vm_compute. reflexivity. Qed.

Example set_health_20_to_6 :
  (step 100000 (EvSetHealth (Some 6)) joinedBot).2
  = [SendSafetyAlert "🚨 CRITICAL HEALTH - AUTO DISCONNECT"
       ("**You took 14 damage! Health: 6/20**" +:+ nl +:+ nl
        +:+ "**Action:** Bot automatically disconnected for safety!")
       "#8B0000" true;
     SetTimeout HealthDisconnectTimer 500].
Proof. vm_compute. reflexivity. Qed.

(** Health 5, unchanged since the previous packet, at the sweep of the
    safety interval: the critical branch sits inside the health-decreased
    test and is not reached; nothing is sent and nothing is scheduled. *)
Lemma criticalAlways_fails_when_unchanged : ¬ criticalAlways 110000 steadyLowHealth.
Proof.
  intros H.
  assert (Connected steadyLowHealth) as Hc
    by (split; [reflexivity | eexists; reflexivity]).
  assert (currentHealth steadyLowHealth
          ≤ autoDisconnectHealth (safetyConfig steadyLowHealth)) as Hle
    by (vm_compute; discriminate).
  destruct (H eq_refl Hc Hle) as [_ Ht]. vm_compute in Ht. discriminate Ht.
Qed.

Example steadyLowHealth_fields :
  currentHealth steadyLowHealth = 5 ∧ lastHealth steadyLowHealth = 5
  ∧ isConnected steadyLowHealth = true ∧ minecraftBot steadyLowHealth = Some 1%nat
  ∧ enabled (safetyConfig steadyLowHealth) = true.
Proof. vm_compute. repeat split; reflexivity. Qed.

Example safety_interval_unchanged_health :
  (step 110000 EvSafetyInterval steadyLowHealth).2 = []
  ∧ (step 140000 EvSafetyInterval steadyLowHealth).2
    = [SendSafetyAlert "💀 Critical Health Alert"
         ("**DANGER: Health is critically low at 5/20!**" +:+ nl
          +:+ "Consider disconnecting immediately!")
         "#8B0000" true].
Proof. vm_compute. split; reflexivity. Qed.

Lemma checkPlayerProximity_state now s :
  (checkPlayerProximity now s).1 = s
  ∨ (checkPlayerProximity now s).1 = set_lastProximityAlert now s.
Proof. unfold checkPlayerProximity. repeat case_match; simpl; auto. Qed.

(** C5, amended.  When the new health is at or below [autoDisconnectHealth]
    and strictly below the stored previous health, the evaluation makes
    exactly one call to [sendSafetyAlert], the urgent "critical health"
    alert carrying the damage and the health, and schedules exactly one
    automatic disconnect, whose callback clears [shouldJoin] and disconnects
    the client; the same is the health part of a sweep of the 10 s safety
    interval.  When the new health is not below the stored previous health,
    no disconnect is scheduled. *)
Theorem checkHealth_critical (now : Z) (s : Bot) :
  enabled (safetyConfig s) = true →
  Connected s →
  currentHealth s ≤ autoDisconnectHealth (safetyConfig s) →
  let critical :=
    SendSafetyAlert "🚨 CRITICAL HEALTH - AUTO DISCONNECT"
      ("**You took " +:+ pretty (lastHealth s - currentHealth s)
       +:+ " damage! Health: " +:+ pretty (currentHealth s) +:+ "/20**" +:+ nl +:+ nl
       +:+ "**Action:** Bot automatically disconnected for safety!")
      "#8B0000" true in
  (currentHealth s < lastHealth s →
     (checkHealth now s).2 = [critical; SetTimeout HealthDisconnectTimer 500]
     ∧ length (alerts (checkHealth now s).2) = 1%nat
     ∧ length (timeouts (checkHealth now s).2) = 1%nat
     ∧ (step now EvSafetyInterval s).2
       = (checkPlayerProximity now s).2
         ++ [critical; SetTimeout HealthDisconnectTimer 500]
     ∧ (∀ c s', onTimeout HealthDisconnectTimer c s'
                = (set_shouldJoin false s',
                   match minecraftBot s' with
                   | Some h => [ClientDisconnect h]
                   | None => []
                   end)))
  ∧ (lastHealth s ≤ currentHealth s → timeouts (checkHealth now s).2 = []).
Proof.
  intros He Hc Hle critical. subst critical. split.
  - intros Hlt.
    assert (∀ s0, enabled (safetyConfig s0) = true → Connected s0 →
                  currentHealth s0 ≤ autoDisconnectHealth (safetyConfig s0) →
                  currentHealth s0 < lastHealth s0 →
                  (checkHealth now s0).2
                  = [criticalAlert s0; SetTimeout HealthDisconnectTimer 500]) as Hcrit.
    { intros s0 He0 Hc0 Hle0 Hlt0.
      destruct (checkHealth_paths now s0 He0 Hc0)
        as [(_ & _ & Heq) | [(_ & Hgt & _) | (Hge & _)]]; [|lia|lia].
      rewrite Heq. reflexivity. }
    rewrite (Hcrit s He Hc Hle Hlt).
    split; [reflexivity|]. split; [reflexivity|]. split; [reflexivity|].
    split; [|reflexivity].
    simpl. unfold onSafetyInterval, andThen.
    destruct Hc as [Hcon Hbot]. rewrite Hcon, He. simpl. f_equal.
    destruct (checkPlayerProximity_state now s) as [-> | ->].
    + apply Hcrit; done.
    + apply (Hcrit (set_lastProximityAlert now s)); done.
  - intros Hge.
    destruct (checkHealth_paths now s He Hc)
      as [(Hlt & _) | [(Hlt & _) | (_ & Heq)]]; [lia|lia|].
    rewrite Heq. destruct (lowHealthCheck_shape now s) as [-> | ->]; reflexivity.
Qed.

Lemma checkHealth_critical_witness :
  (checkHealth 100000 (withHealth 20 6 joinedBot)).2
  = [SendSafetyAlert "🚨 CRITICAL HEALTH - AUTO DISCONNECT"
       ("**You took 14 damage! Health: 6/20**" +:+ nl +:+ nl
        +:+ "**Action:** Bot automatically disconnected for safety!")
       "#8B0000" true;
     SetTimeout HealthDisconnectTimer 500].
Proof.
  assert (Connected (withHealth 20 6 joinedBot)) as Hc
    by (split; [reflexivity | eexists; reflexivity]).
  assert (currentHealth (withHealth 20 6 joinedBot)
          ≤ autoDisconnectHealth (safetyConfig (withHealth 20 6 joinedBot))) as Hle
    by (vm_compute; discriminate).
  assert (currentHealth (withHealth 20 6 joinedBot) < lastHealth (withHealth 20 6 joinedBot))
    as Hlt by (vm_compute; reflexivity).
  destruct (proj1 (checkHealth_critical 100000 (withHealth 20 6 joinedBot)
                     eq_refl Hc Hle) Hlt) as (Htr & _).
  rewrite Htr. vm_compute. reflexivity.
Defined.

(** What [checkHealth] leaves in [lastHealth]: the evaluated health on the
    damage and the no-damage paths, the old value on the critical path. *)
Lemma checkHealth_lastHealth now s :
  enabled (safetyConfig s) = true → Connected s →
  (currentHealth s < lastHealth s
   ∧ currentHealth s ≤ autoDisconnectHealth (safetyConfig s)
   ∧ lastHealth (checkHealth now s).1 = lastHealth s)
  ∨ lastHealth (checkHealth now s).1 = currentHealth s.
Proof.
  intros He Hc.
  destruct (checkHealth_paths now s He Hc)
    as [(Hlt & Hle & Heq) | [(_ & _ & Heq) | (_ & Heq)]]; rewrite Heq.
  - left. done.
  - right. apply lowHealthCheck_lastHealth.
  - right. apply lowHealthCheck_lastHealth.
Qed.

(** C9 fails on the critical path.  After a [set_health] packet takes the
    health from 20 to 5 the evaluation returns from the critical branch:
    the evaluated health is 5 and the stored previous health is still 20.
    The next sweep of the safety interval, the health unchanged, therefore
    sees a drop again and raises the critical alert a second time. *)
Theorem critical_path_keeps_lastHealth :
  let s := (step 100000 (EvSetHealth (Some 5)) joinedBot).1 in
  currentHealth s = 5 ∧ lastHealth s = 20
  ∧ lastHealth (step 110000 EvSafetyInterval s).1 = 20
  ∧ alerts (step 110000 EvSafetyInterval s).2 = [criticalAlert s].
Proof. vm_compute. repeat split; reflexivity. Qed.

(** ** Connecting *)

(** On the joined session (client 1, connected, not connecting)
    [connectToMinecraft] disconnects client 1 and installs a new client. *)
Lemma connectIdempotent_fails_when_connected :
  ¬ connectIdempotent (Some 2%nat) joinedBot.
Proof.
  intros H. specialize (H (or_intror eq_refl)).
  apply (f_equal snd) in H. vm_compute in H. discriminate H.
Qed.

Example button_connect_while_connected :
  minecraftBot joinedBot = Some 1%nat
  ∧ minecraftBot (step 5 (EvButtonConnect (Some 2%nat)) joinedBot).1 = Some 2%nat
  ∧ (step 5 (EvButtonConnect (Some 2%nat)) joinedBot).2
    = [UpdateDiscordActivity; ClientDisconnect 1%nat; UpdateEmbed; CreateClient;
       SetInterval 10000].
Proof. vm_compute. repeat split; reflexivity. Qed.

(** C7, amended.  [connectToMinecraft] while a connect is in flight changes
    nothing and makes no call: no client is created, the existing one is
    neither disconnected nor replaced.  While the session is connected the
    HTTP route and the slash command return before reaching it.  Reached
    while connected and not connecting, as from the control button, it
    disconnects the existing client and installs the one it creates. *)
Theorem connectToMinecraft_in_flight (created : option handle) (s : Bot) :
  (isConnecting s = true → connectToMinecraft created s = (s, []))
  ∧ (isConnected s = true →
     webConnect created s = (s, []) ∧ handleConnectCommand created s = (s, []))
  ∧ (∀ h h', isConnecting s = false → minecraftBot s = Some h →
       connectToMinecraft (Some h') s
       = (set_minecraftBot (Some h') (set_isConnecting true s),
          [ClientDisconnect h; UpdateEmbed; CreateClient; SetInterval 10000])).
Proof.
  split; [|split].
  - intros Hc. unfold connectToMinecraft. rewrite Hc. reflexivity.
  - intros Hc. unfold webConnect, handleConnectCommand. rewrite Hc. done.
  - intros h h' Hc Hb. unfold connectToMinecraft, disconnectClient.
    rewrite Hc, Hb. reflexivity.
Qed.

Lemma connectToMinecraft_in_flight_witness :
  let s := (step 0 (EvButtonConnect (Some 1%nat)) (initial ∅ ∅)).1 in
  isConnecting s = true ∧ connectToMinecraft (Some 2%nat) s = (s, []).
Proof.
  intros s. split; [reflexivity|].
  exact (proj1 (connectToMinecraft_in_flight (Some 2%nat) s) eq_refl).
Defined.

(** ** Disconnect, kick and error *)

Lemma attemptReconnect_keeps s :
  let s' := (attemptReconnect s).1 in
  minecraftBot s' = minecraftBot s ∧ isConnected s' = isConnected s
  ∧ isConnecting s' = isConnecting s ∧ currentWorld s' = currentWorld s
  ∧ currentCoords s' = currentCoords s.
Proof. unfold attemptReconnect. repeat case_match; simpl; done. Qed.

(** What the three handlers share: the session is neither connected nor
    connecting and the world snapshot is reset.  The disconnect and kick
    handlers also clear the connection handle; the error handler leaves it
    as it was. *)
Lemma disconnect_handlers now e s :
  isDisconnectEvent e = true →
  let s' := (step now e s).1 in
  isConnected s' = false ∧ isConnecting s' = false
  ∧ currentWorld s' = "Unknown" ∧ currentCoords s' = origin
  ∧ minecraftBot s' = match e with EvError => minecraftBot s | _ => None end.
Proof.
  intros He.
  destruct e; try discriminate He; simpl;
    unfold onDisconnect, onError, onKick, reconnectIfWanted; simpl;
    match goal with |- context [if ?b then _ else _] => destruct b end;
    try (simpl; done);
    match goal with
    | |- context [attemptReconnect ?s1] =>
        destruct (attemptReconnect_keeps s1) as (-> & -> & -> & -> & ->)
    end; simpl; done.
Qed.

(** C8 fails for the error event.  On the joined session (client 1) the
    disconnect and kick handlers clear the handle, the error handler keeps
    client 1, though it marks the session disconnected and resets the world
    snapshot like the other two. *)
Theorem onError_keeps_handle :
  minecraftBot joinedBot = Some 1%nat
  ∧ minecraftBot (step 5 EvDisconnect joinedBot).1 = None
  ∧ minecraftBot (step 5 EvKick joinedBot).1 = None
  ∧ minecraftBot (step 5 EvError joinedBot).1 = Some 1%nat
  ∧ isConnected (step 5 EvError joinedBot).1 = false
  ∧ isConnecting (step 5 EvError joinedBot).1 = false
  ∧ currentWorld (step 5 EvError joinedBot).1 = "Unknown"
  ∧ currentCoords (step 5 EvError joinedBot).1 = origin.
Proof. vm_compute. repeat split; reflexivity. Qed.

(** ** Chat *)

(** C10.  On a connected session with client [h], [sendChatMessage] queues
    exactly one [command_request]: the text itself when it starts with a
    slash, the text after ["/say "] otherwise; either way what is queued
    starts with a slash.  Without a client, or when not connected, nothing
    is queued.  The session is never changed. *)
Theorem sendChatMessage_command (message : string) (s : Bot) :
  (∀ h, isConnected s = true → minecraftBot s = Some h →
     (String.prefix "/" message = true →
        sendChatMessage message s = (s, [ClientQueue h "command_request" message]))
     ∧ (String.prefix "/" message = false →
        sendChatMessage message s
        = (s, [ClientQueue h "command_request" ("/say " +:+ message)]))
     ∧ ∃ command,
         sendChatMessage message s = (s, [ClientQueue h "command_request" command])
         ∧ String.prefix "/" command = true)
  ∧ (isConnected s = false ∨ minecraftBot s = None →
     sendChatMessage message s = (s, [])).
Proof.
  split.
  - intros h Hc Hb. unfold sendChatMessage. rewrite Hb, Hc.
    split; [intros ->; reflexivity|]. split; [intros ->; reflexivity|].
    destruct (String.prefix "/" message) eqn:E.
    + exists message. done.
    + exists ("/say " +:+ message). split; [reflexivity|].
      apply (prefix_append "/" ("say " +:+ message)).
  - intros [Hc | Hb]; unfold sendChatMessage.
    + rewrite Hc. by destruct (minecraftBot s).
    + rewrite Hb. reflexivity.
Qed.

Lemma sendChatMessage_command_witness :
  sendChatMessage "hello" joinedBot
  = (joinedBot, [ClientQueue 1%nat "command_request" "/say hello"])
  ∧ sendChatMessage "/tpa doggomc" joinedBot
    = (joinedBot, [ClientQueue 1%nat "command_request" "/tpa doggomc"])
  ∧ sendChatMessage "hello" (initial ∅ ∅) = (initial ∅ ∅, []).
Proof.
  destruct (sendChatMessage_command "hello" joinedBot) as [Hsay _].
  destruct (Hsay 1%nat eq_refl eq_refl) as (_ & Hplain & _).
  destruct (sendChatMessage_command "/tpa doggomc" joinedBot) as [Hcmd _].
  destruct (Hcmd 1%nat eq_refl eq_refl) as (Hslash & _ & _).
  destruct (sendChatMessage_command "hello" (initial ∅ ∅)) as [_ Hoff].
  split; [exact (Hplain eq_refl)|]. split; [exact (Hslash eq_refl)|].
  exact (Hoff (or_introl eq_refl)).
Defined.

(** ** Alert throttling *)

Example categoryOf_alerts s :
  categoryOf (threatAlert s) = Some ProximityCategory
  ∧ categoryOf (proximityAlert s) = Some ProximityCategory
  ∧ categoryOf (lowHealthAlert s) = Some LowHealthCategory
  ∧ categoryOf (damageAlert s) = Some DamageCategory
  ∧ categoryOf (criticalAlert s) = Some CriticalCategory.
Proof. repeat split; reflexivity. Qed.

(** Two [set_health] packets one millisecond apart, 20 to 15 to 12: two
    "damage taken" alerts one millisecond apart, the cooldown being 30 s. *)
Lemma throttledAll_fails_for_damage :
  ¬ throttledAll [(100000, EvSetHealth (Some 15)); (100001, EvSetHealth (Some 12))]
      joinedBot.
Proof.
  intros H. specialize (H DamageCategory).
  destruct H as [H _]. specialize (H eq_refl).
  apply Forall_cons in H as [H _]. specialize (H eq_refl).
  vm_compute in H. apply H. reflexivity.
Qed.

Lemma separated_none c gap tr :
  Forall (λ te, categoryOf te.2 ≠ Some c) tr → separated c gap tr.
Proof.
  induction 1 as [|te tr Hte _ IH]; simpl; [exact I|].
  split; [intros Hc; contradiction | exact IH].
Qed.

Lemma separated_app c gap tr1 tr2 :
  separated c gap tr1 →
  separated c gap tr2 →
  Forall (λ te1, categoryOf te1.2 = Some c →
                 Forall (λ te2, categoryOf te2.2 = Some c → gap ≤ te2.1 - te1.1) tr2) tr1 →
  separated c gap (tr1 ++ tr2).
Proof.
  induction tr1 as [|te tr1 IH]; simpl; intros H1 H2 Hx; [exact H2|].
  destruct H1 as [Hhd Htl]. apply Forall_cons in Hx as [Hx1 Hx2]. split.
  - intros Hc. apply Forall_app. split; [by apply Hhd | by apply Hx1].
  - by apply IH.
Qed.

Lemma no_alert_no_category c (tr : list effect) :
  Forall (λ x, isAlert x = false) tr → Forall (λ x, categoryOf x ≠ Some c) tr.
Proof.
  intros H. eapply Forall_impl; [exact H|].
  intros x Hx. destruct x; try discriminate Hx; simpl; discriminate.
Qed.

Section Throttle.

(** A category [c] guarded by the timestamp [last] and the minimal
    distance [gap]: a handler run either emits nothing of the category and
    keeps the timestamp, or finds the timestamp at least [gap] in the past,
    sets it to the clock reading and emits the category once. *)
Variable c : category.
Variable last : Bot → Z.
Variable gap : Bot → Z.

Hypothesis gap_step : ∀ now e s, gap (step now e s).1 = gap s.

Hypothesis throttle_step : ∀ now e s,
  (Forall (λ x, categoryOf x ≠ Some c) (step now e s).2
   ∧ last (step now e s).1 = last s)
  ∨ (gap s ≤ now - last s
     ∧ last (step now e s).1 = now
     ∧ separated c (gap s) (pair now <$> (step now e s).2)).

Lemma run_after_last evs s :
  0 ≤ gap s →
  Forall (λ te, categoryOf te.2 = Some c → gap s ≤ te.1 - last s) (run evs s).2.
Proof.
  revert s. induction evs as [|[now e] evs IH]; intros s Hgap; simpl; [constructor|].
  specialize (IH (step now e s).1). rewrite gap_step in IH. specialize (IH Hgap).
  apply Forall_app. split.
  - apply Forall_fmap.
    destruct (throttle_step now e s) as [[Hnone _] | (Hold & _ & _)].
    + eapply Forall_impl; [exact Hnone|]. intros x Hx Hc. contradiction.
    + apply Forall_forall. intros x _ _. simpl. exact Hold.
  - destruct (throttle_step now e s) as [[_ Hsame] | (Hold & Hnew & _)].
    + rewrite Hsame in IH. exact IH.
    + eapply Forall_impl; [exact IH|]. intros te Hte Hc.
      specialize (Hte Hc). lia.
Qed.

Lemma run_separated evs s :
  0 ≤ gap s → separated c (gap s) (run evs s).2.
Proof.
  revert s. induction evs as [|[now e] evs IH]; intros s Hgap; simpl; [exact I|].
  pose proof (run_after_last evs (step now e s).1) as Hafter.
  specialize (IH (step now e s).1). rewrite gap_step in IH, Hafter.
  specialize (IH Hgap). specialize (Hafter Hgap).
  destruct (throttle_step now e s) as [[Hnone _] | (_ & Hnew & Hsep)].
  - apply separated_app; [|exact IH|].
    + apply separated_none. apply Forall_fmap. exact Hnone.
    + apply Forall_fmap. eapply Forall_impl; [exact Hnone|].
      intros x Hx Hc. contradiction.
  - apply separated_app; [exact Hsep | exact IH |].
    apply Forall_fmap. apply Forall_forall. intros x _ _. simpl.
    rewrite Hnew in Hafter. exact Hafter.
Qed.

End Throttle.

(** The handlers that run no evaluator send no alert and leave the two
    timestamps and the cooldown alone. *)
Lemma step_silent now e s :
  match e with
  | EvSetHealth _ | EvPlayerList _ | EvSafetyInterval => False
  | _ => True
  end →
  lastProximityAlert (step now e s).1 = lastProximityAlert s
  ∧ lastHealthAlert (step now e s).1 = lastHealthAlert s
  ∧ alertCooldown (safetyConfig (step now e s).1) = alertCooldown (safetyConfig s)
  ∧ silent (step now e s).2.
Proof.
  intros He. unfold silent.
  destruct e; try contradiction; simpl;
    unfold onJoin, onSpawn, onMovePlayer, onDisconnect, onError, onKick, onTimeout,
      webConnect, webDisconnect, webChat, buttonConnect, buttonDisconnect,
      handleConnectCommand, handleDisconnectCommand, handleMessageCommand,
      handleSafetyCommand, operatorConnect, operatorDisconnect, autoDisconnect,
      reconnectIfWanted, connectToMinecraft, attemptReconnect, sendChatMessage,
      disconnectClient;
    repeat (case_match; simpl);
    repeat split; repeat constructor.
Qed.

Lemma checkPlayerProximity_clock now s :
  let r := checkPlayerProximity now s in
  lastHealthAlert r.1 = lastHealthAlert s
  ∧ safetyConfig r.1 = safetyConfig s
  ∧ Forall (λ x, categoryOf x ≠ Some LowHealthCategory) r.2
  ∧ ((Forall (λ x, categoryOf x ≠ Some ProximityCategory) r.2
      ∧ lastProximityAlert r.1 = lastProximityAlert s)
     ∨ (alertCooldown (safetyConfig s) ≤ now - lastProximityAlert s
        ∧ lastProximityAlert r.1 = now
        ∧ separated ProximityCategory (alertCooldown (safetyConfig s)) (pair now <$> r.2))).
Proof.
  unfold checkPlayerProximity.
  destruct (safetyOff s); [simpl; repeat split; [constructor | left; split; [constructor | done]]|].
  destruct (Z.ltb_spec (now - lastProximityAlert s) (alertCooldown (safetyConfig s)))
    as [Hlt | Hge];
    [simpl; repeat split; [constructor | left; split; [constructor | done]]|].
  destruct (0 <? length (nearbyPlayers s))%nat;
    [|simpl; repeat split; [constructor | left; split; [constructor | done]]].
  destruct (autoDisconnectOnThreat (safetyConfig s) && (0 <? length (threats s))%nat);
    simpl; (repeat split; [repeat constructor; discriminate|]); right;
    (split; [exact Hge|]); (split; [reflexivity|]);
    repeat split; try exact I; intros _; repeat constructor; simpl; discriminate.
Qed.

Lemma checkHealth_clock now s :
  let r := checkHealth now s in
  lastProximityAlert r.1 = lastProximityAlert s
  ∧ safetyConfig r.1 = safetyConfig s
  ∧ Forall (λ x, categoryOf x ≠ Some ProximityCategory) r.2
  ∧ ((Forall (λ x, categoryOf x ≠ Some LowHealthCategory) r.2
      ∧ lastHealthAlert r.1 = lastHealthAlert s)
     ∨ (alertCooldown (safetyConfig s) + 1 ≤ now - lastHealthAlert s
        ∧ lastHealthAlert r.1 = now
        ∧ separated LowHealthCategory (alertCooldown (safetyConfig s) + 1)
            (pair now <$> r.2))).
Proof.
  assert (∀ pre : list effect,
            Forall (λ x, categoryOf x ≠ Some ProximityCategory) pre →
            Forall (λ x, categoryOf x ≠ Some LowHealthCategory) pre →
            let r := ((lowHealthCheck now s).1, pre ++ (lowHealthCheck now s).2) in
            lastProximityAlert r.1 = lastProximityAlert s
            ∧ safetyConfig r.1 = safetyConfig s
            ∧ Forall (λ x, categoryOf x ≠ Some ProximityCategory) r.2
            ∧ ((Forall (λ x, categoryOf x ≠ Some LowHealthCategory) r.2
                ∧ lastHealthAlert r.1 = lastHealthAlert s)
               ∨ (alertCooldown (safetyConfig s) + 1 ≤ now - lastHealthAlert s
                  ∧ lastHealthAlert r.1 = now
                  ∧ separated LowHealthCategory (alertCooldown (safetyConfig s) + 1)
                      (pair now <$> r.2)))) as Htail.
  { intros pre Hp Hl. unfold lowHealthCheck. simpl.
    destruct (currentHealth s <=? minHealth (safetyConfig s)); simpl;
      [|rewrite app_nil_r; repeat split; [exact Hp | left; done]].
    destruct (Z.ltb_spec (alertCooldown (safetyConfig s)) (now - lastHealthAlert s))
      as [Hlt | Hge]; simpl;
      [|rewrite app_nil_r; repeat split; [exact Hp | left; done]].
    repeat split.
    - apply Forall_app. split; [exact Hp | repeat constructor; discriminate].
    - right. split; [lia|]. split; [reflexivity|].
      rewrite fmap_app. apply separated_app.
      + apply separated_none. by apply Forall_fmap.
      + simpl. repeat split. intros _. constructor.
      + apply Forall_fmap. eapply Forall_impl; [exact Hl|].
        intros x Hx Hc. contradiction. }
  unfold checkHealth.
  destruct (safetyOff s); [simpl; repeat split; [constructor | left; split; [constructor | done]]|].
  destruct (currentHealth s <? lastHealth s).
  - destruct (currentHealth s <=? autoDisconnectHealth (safetyConfig s)).
    + simpl. repeat split; [repeat constructor; discriminate|].
      left. split; [repeat constructor; discriminate | reflexivity].
    + apply (Htail [damageAlert s]); repeat constructor; discriminate.
  - specialize (Htail [] (Forall_nil_2 _) (Forall_nil_2 _)). simpl in Htail.
    destruct (lowHealthCheck now s) as [s' tr'] eqn:E. exact Htail.
Qed.

Lemma step_cooldown now e s :
  alertCooldown (safetyConfig (step now e s).1) = alertCooldown (safetyConfig s).
Proof.
  destruct e;
    try (match goal with
         | |- context [step now ?e s] => by apply (step_silent now e s I)
         end);
    simpl.
  - unfold onSetHealth. destruct health; [|reflexivity].
    by destruct (checkHealth_clock now
                   (set_currentHealth z (set_lastHealth (currentHealth s) s)))
      as (_ & -> & _).
  - unfold onPlayerList. destruct records; [|reflexivity].
    by destruct (checkPlayerProximity_clock now
                   (set_nearbyPlayers (collectPlayers l) s)) as (_ & -> & _).
  - unfold onSafetyInterval, andThen.
    destruct (isConnected s && enabled (safetyConfig s)); [|reflexivity]. simpl.
    destruct (checkHealth_clock now (checkPlayerProximity now s).1) as (_ & -> & _).
    by destruct (checkPlayerProximity_clock now s) as (_ & -> & _).
Qed.

Lemma proximity_step now e s :
  (Forall (λ x, categoryOf x ≠ Some ProximityCategory) (step now e s).2
   ∧ lastProximityAlert (step now e s).1 = lastProximityAlert s)
  ∨ (alertCooldown (safetyConfig s) ≤ now - lastProximityAlert s
     ∧ lastProximityAlert (step now e s).1 = now
     ∧ separated ProximityCategory (alertCooldown (safetyConfig s))
         (pair now <$> (step now e s).2)).
Proof.
  destruct e;
    try (left;
         match goal with
         | |- context [step now ?e s] =>
             destruct (step_silent now e s I) as (Hp & _ & _ & Hs)
         end;
         split; [by apply no_alert_no_category | exact Hp]);
    simpl.
  - unfold onSetHealth. destruct health; [|left; split; [constructor | done]].
    destruct (checkHealth_clock now
                (set_currentHealth z (set_lastHealth (currentHealth s) s)))
      as (Hp & _ & Hnone & _).
    left. split; [exact Hnone | exact Hp].
  - unfold onPlayerList. destruct records; [|left; split; [constructor | done]].
    destruct (checkPlayerProximity_clock now (set_nearbyPlayers (collectPlayers l) s))
      as (_ & _ & _ & H). exact H.
  - unfold onSafetyInterval, andThen.
    destruct (isConnected s && enabled (safetyConfig s));
      [|left; split; [constructor | done]].
    simpl.
    destruct (checkHealth_clock now (checkPlayerProximity now s).1)
      as (Hp & _ & Hnone & _).
    destruct (checkPlayerProximity_clock now s) as (_ & _ & _ & [[Hn Hsame] | (Hold & Hnew & Hsep)]).
    + left. split; [by apply Forall_app | congruence].
    + right. split; [exact Hold|]. split; [congruence|].
      rewrite fmap_app. apply separated_app; [exact Hsep | |].
      * apply separated_none. by apply Forall_fmap.
      * apply Forall_forall. intros x _ _. apply Forall_fmap.
        eapply Forall_impl; [exact Hnone|]. intros y Hy Hc. contradiction.
Qed.

Lemma lowHealth_step now e s :
  (Forall (λ x, categoryOf x ≠ Some LowHealthCategory) (step now e s).2
   ∧ lastHealthAlert (step now e s).1 = lastHealthAlert s)
  ∨ (alertCooldown (safetyConfig s) + 1 ≤ now - lastHealthAlert s
     ∧ lastHealthAlert (step now e s).1 = now
     ∧ separated LowHealthCategory (alertCooldown (safetyConfig s) + 1)
         (pair now <$> (step now e s).2)).
Proof.
  destruct e;
    try (left;
         match goal with
         | |- context [step now ?e s] =>
             destruct (step_silent now e s I) as (_ & Hh & _ & Hs)
         end;
         split; [by apply no_alert_no_category | exact Hh]);
    simpl.
  - unfold onSetHealth. destruct health; [|left; split; [constructor | done]].
    destruct (checkHealth_clock now
                (set_currentHealth z (set_lastHealth (currentHealth s) s)))
      as (_ & _ & _ & H). exact H.
  - unfold onPlayerList. destruct records; [|left; split; [constructor | done]].
    destruct (checkPlayerProximity_clock now (set_nearbyPlayers (collectPlayers l) s))
      as (Hh & _ & Hnone & _).
    left. split; [exact Hnone | exact Hh].
  - unfold onSafetyInterval, andThen.
    destruct (isConnected s && enabled (safetyConfig s));
      [|left; split; [constructor | done]].
    simpl.
    destruct (checkPlayerProximity_clock now s) as (Hh & Hcfg & Hnone & _).
    destruct (checkHealth_clock now (checkPlayerProximity now s).1)
      as (_ & _ & _ & [[Hn Hsame] | (Hold & Hnew & Hsep)]).
    + left. split; [by apply Forall_app | congruence].
    + rewrite Hcfg, Hh in Hold. rewrite Hcfg in Hsep.
      right. split; [exact Hold|]. split; [exact Hnew|].
      rewrite fmap_app. apply separated_app; [| exact Hsep |].
      * apply separated_none. by apply Forall_fmap.
      * apply Forall_fmap. eapply Forall_impl; [exact Hnone|].
        intros y Hy Hc. contradiction.
Qed.

(** C6, amended.  In every run of the event loop, from any state with a
    non-negative cooldown, any two proximity alerts (generic or threat) are
    at least [alertCooldown] apart and any two low-health warnings are more
    than [alertCooldown] apart, by the clock readings of the handlers that
    sent them.  Damage and critical-health alerts are not throttled. *)
Theorem alerts_throttled (evs : list (Z * event)) (s : Bot) :
  0 ≤ alertCooldown (safetyConfig s) →
  separated ProximityCategory (alertCooldown (safetyConfig s)) (run evs s).2
  ∧ separated LowHealthCategory (alertCooldown (safetyConfig s) + 1) (run evs s).2.
Proof.
  intros Hcool. split.
  - apply (run_separated ProximityCategory lastProximityAlert
             (λ s, alertCooldown (safetyConfig s)));
      [apply step_cooldown | apply proximity_step | exact Hcool].
  - apply (run_separated LowHealthCategory lastHealthAlert
             (λ s, alertCooldown (safetyConfig s) + 1)).
    + intros now e s0. by rewrite step_cooldown.
    + apply lowHealth_step.
    + lia.
Qed.

Example steveVisits_alerts :
  (λ te, (te.1, titleOf te.2)) <$> (run steveVisits joinedBot).2
  = [(100000, Some threatTitle); (100000, None);
     (140000, Some threatTitle); (140000, None)].
Proof. vm_compute. reflexivity. Qed.

Lemma alerts_throttled_witness :
  separated ProximityCategory 30000 (run steveVisits joinedBot).2
  ∧ separated LowHealthCategory 30001 (run steveVisits joinedBot).2.
Proof.
  assert (0 ≤ alertCooldown (safetyConfig joinedBot)) as Hcool
    by (vm_compute; discriminate).
  exact (alerts_throttled steveVisits joinedBot Hcool).
Defined.


(** * Further properties of the handlers *)

(** ** Player list *)

Lemma collectPlayers_fold (l acc : list string) :
  let step := λ (acc : list string) (u : string),
    if bool_decide (u ≠ "") && bool_decide (u ≠ CONFIG_username)
    then setAdd u acc else acc in
  NoDup acc →
  NoDup (foldl step acc l)
  ∧ ∀ p, p ∈ foldl step acc l ↔ p ∈ acc ∨ (p ∈ l ∧ p ≠ "" ∧ p ≠ CONFIG_username).
Proof.
  intros step. revert acc. induction l as [|u l IH]; intros acc Hnd; simpl.
  - split; [exact Hnd|]. intros p. split; [auto|].
    intros [H | [H _]]; [exact H | by apply elem_of_nil in H].
  - assert (NoDup (step acc u)
            ∧ ∀ p, p ∈ step acc u ↔ p ∈ acc ∨ (p = u ∧ p ≠ "" ∧ p ≠ CONFIG_username))
      as [Hnd' Hin'].
    { unfold step, setAdd.
      destruct (bool_decide (u ≠ "")) eqn:E1, (bool_decide (u ≠ CONFIG_username)) eqn:E2;
        simpl;
        try (apply bool_decide_eq_false in E1);
        try (apply bool_decide_eq_false in E2);
        try (apply bool_decide_eq_true in E1);
        try (apply bool_decide_eq_true in E2);
        try (split; [exact Hnd|]; intros p; split; [auto|];
             intros [H | (-> & H1 & H2)]; [exact H | contradiction]).
      case_bool_decide as Hmem.
      - split; [exact Hnd|]. intros p. split; [auto|].
        intros [H | (-> & _)]; [exact H | exact Hmem].
      - split.
        + apply NoDup_app. split; [exact Hnd|]. split; [|apply NoDup_singleton].
          intros x Hx Hx'. apply list_elem_of_singleton in Hx'. by subst.
        + intros p. rewrite elem_of_app, list_elem_of_singleton.
          split; [intros [H | ->]; auto | intros [H | (H & _)]; auto]. }
    destruct (IH (step acc u) Hnd') as [Hnd2 Hin2]. split; [exact Hnd2|].
    intros p. rewrite Hin2, Hin', elem_of_cons. tauto.
Qed.

(** X1.  The player set built from a [player_list] packet has no duplicates
    and holds exactly the usernames of the packet that are neither empty
    nor the bot's own. *)
Theorem collectPlayers_spec (usernames : list string) :
  NoDup (collectPlayers usernames)
  ∧ ∀ p, p ∈ collectPlayers usernames
         ↔ p ∈ usernames ∧ p ≠ "" ∧ p ≠ CONFIG_username.
Proof.
  destruct (collectPlayers_fold usernames [] (NoDup_nil_2)) as [Hnd Hin].
  split; [exact Hnd|]. intros p. unfold collectPlayers. rewrite Hin.
  split; [|auto]. intros [H | H]; [by apply elem_of_nil in H | exact H].
Qed.

Example collectPlayers_example :
  collectPlayers ["Steve"; ""; "Alex"; "Steve"] = ["Steve"; "Alex"].
Proof. vm_compute. reflexivity. Qed.

Lemma checkPlayerProximity_nearby now s :
  nearbyPlayers (checkPlayerProximity now s).1 = nearbyPlayers s.
Proof. by destruct (checkPlayerProximity_state now s) as [-> | ->]. Qed.

(** X2.  A [player_list] packet replaces the nearby set wholesale: whatever
    was stored before, afterwards it is the set collected from the packet.
    A packet that names nobody else empties the set and makes no call; a
    packet without records changes nothing. *)
Theorem onPlayerList_replaces (now : Z) (s : Bot) :
  (∀ usernames,
     nearbyPlayers (onPlayerList now (Some usernames) s).1 = collectPlayers usernames)
  ∧ (∀ usernames,
       collectPlayers usernames = [] →
       onPlayerList now (Some usernames) s = (set_nearbyPlayers [] s, []))
  ∧ onPlayerList now None s = (s, []).
Proof.
  split; [|split].
  - intros usernames. unfold onPlayerList. by rewrite checkPlayerProximity_nearby.
  - intros usernames Hnone. unfold onPlayerList, checkPlayerProximity.
    rewrite Hnone. simpl. by repeat case_match.
  - reflexivity.
Qed.

Lemma onPlayerList_replaces_witness :
  onPlayerList 100000 (Some [""; ""]) (proximityExample true)
  = (set_nearbyPlayers [] (proximityExample true), []).
Proof.
  exact (proj1 (proj2 (onPlayerList_replaces 100000 (proximityExample true)))
           [""; ""] eq_refl).
Defined.

(** ** What the event loop keeps *)

Lemma checkHealth_state now s :
  (checkHealth now s).1 = s
  ∨ (checkHealth now s).1 = set_lastHealth (currentHealth s) s
  ∨ (checkHealth now s).1 = set_lastHealthAlert now (set_lastHealth (currentHealth s) s).
Proof. unfold checkHealth, lowHealthCheck. repeat case_match; simpl; auto. Qed.

(** Unfolds the handlers that run no evaluator down to their tests. *)
Ltac unfold_handlers :=
  unfold onJoin, onSpawn, onMovePlayer, onDisconnect, onError, onKick, onTimeout,
    webConnect, webDisconnect, webChat, buttonConnect, buttonDisconnect,
    handleConnectCommand, handleDisconnectCommand, handleMessageCommand,
    handleSafetyCommand, operatorConnect, operatorDisconnect, autoDisconnect,
    reconnectIfWanted, connectToMinecraft, attemptReconnect, sendChatMessage,
    disconnectClient, resetWorld.

(** Splits on the evaluator a handler runs, leaving the state it returns as
    one of the shapes of [checkHealth_state] and
    [checkPlayerProximity_state]. *)
Ltac evaluator_shapes now s :=
  simpl; unfold onSetHealth, onPlayerList, onSafetyInterval, andThen;
  repeat case_match; simpl;
  repeat match goal with
    | |- context [checkHealth now ?s0] =>
        let H := fresh "Hh" in
        destruct (checkHealth_state now s0) as [H | [H | H]]; rewrite H; clear H
    | |- context [checkPlayerProximity now ?s0] =>
        let H := fresh "Hp" in
        destruct (checkPlayerProximity_state now s0) as [H | H]; rewrite H; clear H
    end; simpl.

Lemma step_settings now e s : settings (step now e s).1 = settings s.
Proof.
  destruct e;
    try (simpl; unfold_handlers; repeat (case_match; simpl); reflexivity);
    evaluator_shapes now s; reflexivity.
Qed.

(** X3.  No handler writes the reconnect parameters, the trust and block
    lists or the safety thresholds: over any run they are what they were
    ([/safety] only toggles [enabled]). *)
Theorem run_settings (evs : list (Z * event)) (s : Bot) :
  settings (run evs s).1 = settings s.
Proof.
  revert s. induction evs as [|[now e] evs IH]; intros s; simpl; [reflexivity|].
  rewrite IH. apply step_settings.
Qed.

Ltac leb_facts :=
  repeat match goal with
    | H : (_ <=? _) = true |- _ => apply Z.leb_le in H
    | H : (_ <=? _) = false |- _ => apply Z.leb_gt in H
    | H : (_ <? _) = true |- _ => apply Z.ltb_lt in H
    | H : (_ <? _) = false |- _ => apply Z.ltb_ge in H
    end.

(** Proves [Forall P l] for an explicit list [l], leaving the members on
    which [P] does not compute to [True]. *)
Ltac forall_explicit :=
  repeat (apply Forall_cons; split); try apply Forall_nil_2; simpl; try exact I.

Lemma quiet_within lo hi tr : quiet tr → Forall (reconnectDelayWithin lo hi) tr.
Proof.
  intros H. eapply Forall_impl; [exact H|].
  intros x Hx. destruct x as [| [] | | | | | |]; try exact I. discriminate Hx.
Qed.

Lemma step_budget now e s :
  budgetOk s → 0 ≤ reconnectDelay s →
  budgetOk (step now e s).1
  ∧ Forall (reconnectDelayWithin (reconnectDelay s) (5 * reconnectDelay s))
      (step now e s).2.
Proof.
  intros Hb Hd. unfold budgetOk in *.
  destruct e;
    try (simpl; unfold_handlers; repeat (case_match; simpl); leb_facts;
         simpl in *; (split; [lia | forall_explicit; nia]));
    (split; [evaluator_shapes now s; lia | apply quiet_within]); simpl.
  - unfold onSetHealth. case_match; [apply checkHealth_shouldJoin | constructor].
  - unfold onPlayerList.
    case_match; [apply checkPlayerProximity_shouldJoin | constructor].
  - unfold onSafetyInterval, andThen. case_match; [|constructor]. simpl.
    apply quiet_app; [apply checkPlayerProximity_shouldJoin | apply checkHealth_shouldJoin].
Qed.

(** In a run whose invocations of [attemptReconnect] are not interrupted the
    counter stays within its budget and the delays between the base delay
    and five times the base delay. *)
Lemma budget_kept_uninterrupted (evs : list (Z * event)) (s : Bot) :
  budgetOk s → 0 ≤ reconnectDelay s →
  budgetOk (run evs s).1
  ∧ Forall (λ te, reconnectDelayWithin (reconnectDelay s) (5 * reconnectDelay s) te.2)
      (run evs s).2.
Proof.
  revert s. induction evs as [|[now e] evs IH]; intros s Hb Hd; simpl.
  - split; [exact Hb | constructor].
  - destruct (step_budget now e s Hb Hd) as [Hb1 Htr1].
    pose proof (step_settings now e s) as Hset. unfold settings in Hset.
    assert (reconnectDelay (step now e s).1 = reconnectDelay s) as Hsame by congruence.
    destruct (IH (step now e s).1 Hb1) as [Hb2 Htr2]; [lia|].
    rewrite Hsame in Htr2. split; [exact Hb2|].
    apply Forall_app. split; [by apply Forall_fmap | exact Htr2].
Qed.

Lemma run_reconnectDelay evs s :
  reconnectDelay (run evs s).1 = reconnectDelay s.
Proof.
  revert s. induction evs as [|[now e] evs IH]; intros s; simpl; [reflexivity|].
  rewrite IH. pose proof (step_settings now e s) as H. unfold settings in H. congruence.
Qed.

(** X4.  From a state whose reconnect counter lies between zero and
    [maxReconnectAttempts], every run keeps the counter within these bounds
    and the base delay as it was.  In any state within these bounds, so
    whatever handlers ran while [attemptReconnect] waited for its status
    update, the timer it then arms has a delay between zero and five times
    the base delay; the delay is at least the base delay unless the counter
    stands at zero, and is zero when it does. *)
Theorem run_budget (evs : list (Z * event)) (s : Bot) :
  budgetOk s → 0 ≤ reconnectDelay s →
  budgetOk (run evs s).1
  ∧ reconnectDelay (run evs s).1 = reconnectDelay s
  ∧ (∀ m, budgetOk m → 0 ≤ reconnectDelay m →
       ∃ d, (attemptReconnectResume m).2 = [SetTimeout ReconnectTimer d]
            ∧ 0 ≤ d ≤ 5 * reconnectDelay m
            ∧ (1 ≤ reconnectAttempts m → reconnectDelay m ≤ d)
            ∧ (reconnectAttempts m = 0 → d = 0)).
Proof.
  intros Hb Hd.
  split; [exact (proj1 (budget_kept_uninterrupted evs s Hb Hd))|].
  split; [apply run_reconnectDelay|].
  intros m [Hlo Hhi] Hdm.
  exists (reconnectDelay m * Z.min (reconnectAttempts m) 5).
  split; [reflexivity|]. repeat split; nia.
Qed.

Example nineDisconnects_delays :
  timeouts (snd <$> (run nineDisconnects (set_shouldJoin true (initial ∅ ∅))).2)
  = SetTimeout ReconnectTimer
    <$> [15000; 30000; 45000; 60000; 75000; 75000; 75000; 75000; 75000].
Proof. vm_compute. reflexivity. Qed.

Lemma run_budget_witness :
  let s := set_shouldJoin true (initial ∅ ∅) in
  budgetOk (run nineDisconnects s).1
  ∧ (attemptReconnectResume (run nineDisconnects s).1).2
    = [SetTimeout ReconnectTimer 75000].
Proof.
  intros s.
  assert (budgetOk s) as Hb by (unfold budgetOk; simpl; lia).
  assert (0 ≤ reconnectDelay s) as Hd by (simpl; lia).
  split; [exact (proj1 (run_budget nineDisconnects s Hb Hd)) | reflexivity].
Defined.

Lemma step_currentWorld now e s :
  currentWorld s = "Unknown" → currentWorld (step now e s).1 = "Unknown".
Proof.
  intros Hw.
  destruct e;
    try (simpl; unfold_handlers; repeat (case_match; simpl); done);
    evaluator_shapes now s; done.
Qed.

(** X5.  The world name is never learned: it starts as ["Unknown"] and no
    handler stores anything else, so it is ["Unknown"] after every run. *)
Theorem run_currentWorld (evs : list (Z * event)) (s : Bot) :
  currentWorld s = "Unknown" → currentWorld (run evs s).1 = "Unknown".
Proof.
  revert s. induction evs as [|[now e] evs IH]; intros s Hw; simpl; [exact Hw|].
  apply IH. by apply step_currentWorld.
Qed.

Lemma run_currentWorld_witness :
  currentWorld (run steveVisits joinedBot).1 = "Unknown".
Proof. exact (run_currentWorld steveVisits joinedBot eq_refl). Defined.

(** ** Safety switched off *)

Lemma safetyOff_disabled s : enabled (safetyConfig s) = false → safetyOff s = true.
Proof. intros H. unfold safetyOff. rewrite H. reflexivity. Qed.

Lemma checkHealth_disabled now s :
  enabled (safetyConfig s) = false → checkHealth now s = (s, []).
Proof. intros H. unfold checkHealth. by rewrite (safetyOff_disabled s H). Qed.

Lemma checkPlayerProximity_disabled now s :
  enabled (safetyConfig s) = false → checkPlayerProximity now s = (s, []).
Proof. intros H. unfold checkPlayerProximity. by rewrite (safetyOff_disabled s H). Qed.

Lemma step_safety_disabled now e s :
  enablesSafety e = false →
  enabled (safetyConfig s) = false →
  enabled (safetyConfig (step now e s).1) = false
  ∧ Forall (λ x, isSafetyCall x = false) (step now e s).2.
Proof.
  intros He Hoff.
  destruct e;
    try (simpl; unfold_handlers; repeat (case_match; simpl);
         (split; [done | forall_explicit; done]));
    simpl.
  - unfold onSetHealth. case_match; [|split; [done | constructor]].
    rewrite checkHealth_disabled by exact Hoff. split; [exact Hoff | constructor].
  - unfold onPlayerList. case_match; [|split; [done | constructor]].
    rewrite checkPlayerProximity_disabled by exact Hoff. split; [exact Hoff | constructor].
  - unfold onSafetyInterval. rewrite Hoff, andb_false_r. split; [exact Hoff | constructor].
  - destruct v; [discriminate He|]. unfold handleSafetyCommand. simpl.
    split; [reflexivity | forall_explicit; reflexivity].
Qed.

(** X6.  While safety is switched off the monitor does nothing: a run that
    starts with [enabled = false] and holds no [/safety enabled:true]
    command sends no alert and arms no automatic-disconnect timer, whatever
    health and player-list packets arrive. *)
Theorem run_safety_disabled (evs : list (Z * event)) (s : Bot) :
  enabled (safetyConfig s) = false →
  Forall (λ te, enablesSafety te.2 = false) evs →
  enabled (safetyConfig (run evs s).1) = false
  ∧ Forall (λ te, isSafetyCall te.2 = false) (run evs s).2.
Proof.
  intros Hoff Hevs. revert s Hoff.
  induction Hevs as [|[now e] evs He _ IH]; intros s Hoff; simpl.
  - split; [exact Hoff | constructor].
  - destruct (step_safety_disabled now e s He Hoff) as [Hoff1 Htr1].
    destruct (IH _ Hoff1) as [Hoff2 Htr2]. split; [exact Hoff2|].
    apply Forall_app. split; [by apply Forall_fmap | exact Htr2].
Qed.

(** ** Calls on the game client *)

Lemma slashCommand_sendChatMessage m s : Forall slashCommand (sendChatMessage m s).2.
Proof.
  unfold sendChatMessage. repeat case_match; forall_explicit;
    (split; [reflexivity|]); try assumption.
  apply (prefix_append "/" ("say " +:+ m)).
Qed.

Lemma slashCommand_quiet_alerts now s :
  Forall slashCommand (checkHealth now s).2
  ∧ Forall slashCommand (checkPlayerProximity now s).2.
Proof.
  unfold checkHealth, lowHealthCheck, checkPlayerProximity.
  split; repeat case_match; forall_explicit.
Qed.

Lemma step_slashCommand now e s : Forall slashCommand (step now e s).2.
Proof.
  destruct e; simpl;
    try (unfold onJoin, onSpawn, onMovePlayer, onDisconnect, onError, onKick,
           webConnect, webDisconnect, buttonConnect, buttonDisconnect,
           handleConnectCommand, handleDisconnectCommand, handleSafetyCommand,
           operatorConnect, operatorDisconnect, reconnectIfWanted, connectToMinecraft,
           attemptReconnect, disconnectClient;
         repeat (case_match; simpl); forall_explicit; done).
  - unfold onSetHealth. case_match; [apply slashCommand_quiet_alerts | constructor].
  - unfold onPlayerList. case_match; [apply slashCommand_quiet_alerts | constructor].
  - unfold onSafetyInterval, andThen. case_match; [|constructor]. simpl.
    apply Forall_app. split; apply slashCommand_quiet_alerts.
  - unfold onTimeout, autoDisconnect, connectToMinecraft, attemptReconnect,
      disconnectClient.
    destruct cb; repeat (case_match; simpl); forall_explicit;
      try apply slashCommand_sendChatMessage.
  - unfold webChat. repeat case_match; try constructor.
    apply slashCommand_sendChatMessage.
  - unfold handleMessageCommand. repeat case_match; try constructor.
    apply slashCommand_sendChatMessage.
Qed.

(** X7.  Whatever the operator types and whatever events arrive, every
    packet the bot queues to the game client is a [command_request] whose
    command starts with a slash: plain chat always goes out as [/say]. *)
Theorem run_slashCommand (evs : list (Z * event)) (s : Bot) :
  Forall (λ te, slashCommand te.2) (run evs s).2.
Proof.
  revert s. induction evs as [|[now e] evs IH]; intros s; simpl; [constructor|].
  apply Forall_app. split; [|apply IH].
  apply Forall_fmap. apply step_slashCommand.
Qed.

Lemma run_safety_disabled_witness :
  let evs := [(1, EvWebConnect (Some 1%nat)); (2, EvJoin);
              (3, EvSetHealth (Some 2)); (4, EvPlayerList (Some ["Steve"]));
              (5, EvSafetyInterval)] in
  enabled (safetyConfig (run evs (initial ∅ ∅)).1) = false
  ∧ Forall (λ te, isSafetyCall te.2 = false) (run evs (initial ∅ ∅)).2.
Proof.
  intros evs.
  assert (Forall (λ te : Z * event, enablesSafety te.2 = false) evs) as Hevs
    by (repeat constructor).
  exact (run_safety_disabled evs (initial ∅ ∅) eq_refl Hevs).
Defined.



(** ** A failed [createClient] *)

(** X9.  When [createClient] throws, in whatever state the session is when
    [connectToMinecraft] comes back from its status update: the session is
    not left connecting, and the stored client and the connected flag are
    untouched.  [shouldJoin] is read then.  If it is set and budget is left,
    the failure counts as one more attempt and [attemptReconnect] waits for
    its own status update, its timer not yet armed; if it is set and the
    budget is spent, [shouldJoin] is cleared; if it is cleared, only the
    status is updated.  No timer is armed before the next wait is over. *)
Theorem connectToMinecraft_failure (m : Bot) :
  let r := connectToMinecraftResume None m in
  isConnecting r.1.1 = false
  ∧ minecraftBot r.1.1 = minecraftBot m
  ∧ isConnected r.1.1 = isConnected m
  ∧ timeouts r.1.2 = []
  ∧ (shouldJoin m = true → reconnectAttempts m < maxReconnectAttempts m →
     r = (set_reconnectAttempts (reconnectAttempts m + 1) (set_isConnecting false m),
          [CreateClient; UpdateEmbed], true))
  ∧ (shouldJoin m = true → maxReconnectAttempts m ≤ reconnectAttempts m →
     r = (set_shouldJoin false (set_isConnecting false m),
          [CreateClient; UpdateEmbed], false))
  ∧ (shouldJoin m = false →
     r = (set_isConnecting false m, [CreateClient; UpdateEmbed], false))
  ∧ (∀ s, isConnecting s = false →
       connectToMinecraftBegin s
       = (set_isConnecting true s,
          match minecraftBot s with
          | Some h => [ClientDisconnect h; UpdateEmbed]
          | None => [UpdateEmbed]
          end, true)).
Proof.
  unfold connectToMinecraftResume, attemptReconnectBegin. simpl.
  destruct (shouldJoin m) eqn:Hj; simpl.
  - destruct (Z.leb_spec (maxReconnectAttempts m) (reconnectAttempts m)); simpl;
      (split; [reflexivity|]); (split; [reflexivity|]); (split; [reflexivity|]);
      (split; [reflexivity|]);
      (split; [intros _ Hlt; try reflexivity; exfalso; lia|]);
      (split; [intros _ Hge; try reflexivity; exfalso; lia|]);
      (split; [discriminate|]);
      intros s Hc; unfold connectToMinecraftBegin, disconnectClient; rewrite Hc;
      by destruct (minecraftBot s).
  - split; [reflexivity|]. split; [reflexivity|]. split; [reflexivity|].
    split; [reflexivity|]. split; [discriminate|]. split; [discriminate|].
    split; [reflexivity|].
    intros s Hc. unfold connectToMinecraftBegin, disconnectClient. rewrite Hc.
    by destruct (minecraftBot s).
Qed.

Lemma connectToMinecraft_failure_witness :
  let s := set_shouldJoin true (initial ∅ ∅) in
  connectToMinecraftBegin s = (set_isConnecting true s, [UpdateEmbed], true)
  ∧ connectToMinecraftResume None (set_isConnecting true s)
    = (set_reconnectAttempts 1 s, [CreateClient; UpdateEmbed], true)
  ∧ connectToMinecraftResume None (set_shouldJoin false (set_isConnecting true s))
    = (initial ∅ ∅, [CreateClient; UpdateEmbed], false).
Proof.
  intros s.
  assert (reconnectAttempts (set_isConnecting true s)
          < maxReconnectAttempts (set_isConnecting true s)) as Hlt by (simpl; lia).
  destruct (connectToMinecraft_failure (set_isConnecting true s))
    as (_ & _ & _ & _ & Hretry & _ & _ & Hbegin).
  destruct (connectToMinecraft_failure (set_shouldJoin false (set_isConnecting true s)))
    as (_ & _ & _ & _ & _ & _ & Hidle & _).
  split; [exact (Hbegin s eq_refl)|].
  split; [exact (Hretry eq_refl Hlt) | exact (Hidle eq_refl)].
Defined.

(** ** Who counts as a threat *)

Lemma filter_untrusted_nil (trusted : gset string) (l : list string) :
  (∀ p, p ∈ l → p ∈ trusted) → filter (λ p, p ∉ trusted) l = [].
Proof.
  induction l as [|p l IH]; intros Hall; [reflexivity|].
  rewrite filter_cons. case_decide as Hp.
  - exfalso. apply Hp. apply Hall. apply elem_of_cons. by left.
  - apply IH. intros q Hq. apply Hall. apply elem_of_cons. by right.
Qed.

(** X10.  Among trusted players only, the proximity evaluator never raises
    the threat alert and never schedules a disconnect, in whatever state
    and with [autoDisconnectOnThreat] set or not. *)
Theorem checkPlayerProximity_trusted_only (now : Z) (s : Bot) :
  (∀ p, p ∈ nearbyPlayers s → p ∈ trustedPlayers s) →
  threats s = []
  ∧ timeouts (checkPlayerProximity now s).2 = []
  ∧ titled threatTitle (checkPlayerProximity now s).2 = [].
Proof.
  intros Hall.
  assert (threats s = []) as Hnone by (by apply filter_untrusted_nil).
  split; [exact Hnone|].
  unfold checkPlayerProximity. rewrite Hnone. simpl. rewrite andb_false_r.
  repeat case_match; split; reflexivity.
Qed.

Lemma checkPlayerProximity_trusted_only_witness :
  let s := set_nearbyPlayers ["A"] (proximityExample true) in
  (checkPlayerProximity 30000 s).2 = [proximityAlert s]
  ∧ timeouts (checkPlayerProximity 30000 s).2 = [].
Proof.
  intros s. split; [vm_compute; reflexivity|].
  assert (∀ p, p ∈ nearbyPlayers s → p ∈ trustedPlayers s) as Hall.
  { intros p Hp. apply list_elem_of_singleton in Hp. subst p.
    change ("A" ∈ ({["A"]} : gset string)). by apply elem_of_singleton_2. }
  exact (proj1 (proj2 (checkPlayerProximity_trusted_only 30000 s Hall))).
Defined.

(** X11.  The block list has no say in what the proximity evaluator does:
    with any other block list the threats, the alert titles, the scheduled
    timers and the new state are the same; it only changes the annotation
    text of the generic alert. *)
Theorem checkPlayerProximity_ignores_blocklist (now : Z) (blocked : gset string) (s : Bot) :
  threats (withBlocked blocked s) = threats s
  ∧ threatAlert (withBlocked blocked s) = threatAlert s
  ∧ titleOf <$> (checkPlayerProximity now (withBlocked blocked s)).2
    = titleOf <$> (checkPlayerProximity now s).2
  ∧ timeouts (checkPlayerProximity now (withBlocked blocked s)).2
    = timeouts (checkPlayerProximity now s).2
  ∧ (checkPlayerProximity now (withBlocked blocked s)).1
    = withBlocked blocked (checkPlayerProximity now s).1.
Proof.
  split; [reflexivity|]. split; [reflexivity|].
  unfold checkPlayerProximity.
  change (safetyOff (withBlocked blocked s)) with (safetyOff s).
  change (threats (withBlocked blocked s)) with (threats s).
  simpl. repeat case_match; repeat split; reflexivity.
Qed.

Example blocked_but_trusted :
  let s := withBlocked {["A"]} (set_nearbyPlayers ["A"] (proximityExample true)) in
  (checkPlayerProximity 30000 s).2
  = [SendSafetyAlert "⚠️ Player Proximity Alert"
       ("**1 player(s) detected:**" +:+ nl +:+ "✅🚫 **A**") "#ff9900" true].
Proof. vm_compute. reflexivity. Qed.

(** ** Evaluator footprints *)

(** X12.  An evaluation that sends no proximity alert changes nothing; one
    that sends an alert sends exactly one and only moves
    [lastProximityAlert] to the clock reading.  A health evaluation writes
    at most [lastHealth] and [lastHealthAlert], and moves [lastHealthAlert]
    exactly when it sends the low-health warning. *)
Theorem evaluators_footprint (now : Z) (s : Bot) :
  (checkPlayerProximity now s = (s, [])
   ∨ ((checkPlayerProximity now s).1 = set_lastProximityAlert now s
      ∧ length (alerts (checkPlayerProximity now s).2) = 1%nat))
  ∧ ((titled lowHealthTitle (checkHealth now s).2 = []
      ∧ ((checkHealth now s).1 = s
         ∨ (checkHealth now s).1 = set_lastHealth (currentHealth s) s))
     ∨ (titled lowHealthTitle (checkHealth now s).2
        = [lowHealthAlert (set_lastHealth (currentHealth s) s)]
        ∧ (checkHealth now s).1
          = set_lastHealthAlert now (set_lastHealth (currentHealth s) s))).
Proof.
  split.
  - unfold checkPlayerProximity. repeat case_match; simpl; auto.
  - unfold checkHealth, lowHealthCheck. repeat case_match; simpl; auto.
Qed.

(** X13.  The low-health warning.  On an evaluation that does not take the
    critical branch, the warning goes out exactly when the health is at or
    below [minHealth] and more than [alertCooldown] has passed since the
    last warning; it then stamps [lastHealthAlert].  At exactly
    [alertCooldown] after the last warning it is still suppressed. *)
Theorem checkHealth_lowHealth_warning (now : Z) (s : Bot) :
  enabled (safetyConfig s) = true →
  Connected s →
  ¬ (currentHealth s < lastHealth s
     ∧ currentHealth s ≤ autoDisconnectHealth (safetyConfig s)) →
  (currentHealth s ≤ minHealth (safetyConfig s) →
   alertCooldown (safetyConfig s) < now - lastHealthAlert s →
   titled lowHealthTitle (checkHealth now s).2
   = [lowHealthAlert (set_lastHealth (currentHealth s) s)]
   ∧ lastHealthAlert (checkHealth now s).1 = now)
  ∧ (minHealth (safetyConfig s) < currentHealth s
     ∨ now - lastHealthAlert s ≤ alertCooldown (safetyConfig s) →
     titled lowHealthTitle (checkHealth now s).2 = []
     ∧ lastHealthAlert (checkHealth now s).1 = lastHealthAlert s).
Proof.
  intros He Hc Hnc.
  assert (∀ pre, titled lowHealthTitle pre = [] →
            (currentHealth s ≤ minHealth (safetyConfig s) →
             alertCooldown (safetyConfig s) < now - lastHealthAlert s →
             titled lowHealthTitle (pre ++ (lowHealthCheck now s).2)
             = [lowHealthAlert (set_lastHealth (currentHealth s) s)]
             ∧ lastHealthAlert (lowHealthCheck now s).1 = now)
            ∧ (minHealth (safetyConfig s) < currentHealth s
               ∨ now - lastHealthAlert s ≤ alertCooldown (safetyConfig s) →
               titled lowHealthTitle (pre ++ (lowHealthCheck now s).2) = []
               ∧ lastHealthAlert (lowHealthCheck now s).1 = lastHealthAlert s)) as Htail.
  { intros pre Hpre. unfold titled in *. unfold lowHealthCheck. simpl.
    destruct (Z.leb_spec (currentHealth s) (minHealth (safetyConfig s))) as [Hle | Hgt];
      destruct (Z.ltb_spec (alertCooldown (safetyConfig s)) (now - lastHealthAlert s))
        as [Hlt | Hge];
      simpl; rewrite filter_app, Hpre; simpl;
      (split; [intros; try lia; split; reflexivity
              | intros [? | ?]; try lia; split; reflexivity]). }
  destruct (checkHealth_paths now s He Hc)
    as [(Hlt & Hle & _) | [(_ & _ & Heq) | (_ & Heq)]].
  - exfalso. apply Hnc. done.
  - rewrite Heq. simpl. apply (Htail [damageAlert s]). reflexivity.
  - rewrite Heq. apply (Htail []). reflexivity.
Qed.

Lemma checkHealth_lowHealth_warning_witness :
  let s := withHealth 9 9 joinedBot in
  titled lowHealthTitle (checkHealth 30001 s).2
  = [lowHealthAlert (set_lastHealth 9 s)]
  ∧ titled lowHealthTitle (checkHealth 30000 s).2 = [].
Proof.
  intros s.
  assert (Connected s) as Hc by (split; [reflexivity | eexists; reflexivity]).
  assert (¬ (currentHealth s < lastHealth s
             ∧ currentHealth s ≤ autoDisconnectHealth (safetyConfig s))) as Hnc
    by (intros [H _]; vm_compute in H; discriminate H).
  assert (currentHealth s ≤ minHealth (safetyConfig s)) as Hlow
    by (vm_compute; discriminate).
  split.
  - assert (alertCooldown (safetyConfig s) < 30001 - lastHealthAlert s) as Hcool
      by (vm_compute; reflexivity).
    exact (proj1 (proj1 (checkHealth_lowHealth_warning 30001 s eq_refl Hc Hnc) Hlow Hcool)).
  - assert (30000 - lastHealthAlert s ≤ alertCooldown (safetyConfig s)) as Hcool
      by (vm_compute; discriminate).
    exact (proj1 (proj2 (checkHealth_lowHealth_warning 30000 s eq_refl Hc Hnc)
                    (or_intror Hcool))).
Defined.

(** ** Disconnecting for good *)



(** X15.  The three ways to disconnect differ while the bot is waiting to
    reconnect (it wants to join and is neither connected nor connecting).
    The slash command returns at its connected test and changes nothing, so
    the pending reconnect timer still creates a client when it fires; the
    control button and the HTTP route clear [shouldJoin], and the timer then
    does nothing. *)
Theorem disconnect_while_reconnecting (t1 t2 : Z) (h : handle) (s : Bot) :
  shouldJoin s = true → isConnected s = false → isConnecting s = false →
  step t1 EvDisconnectCommand s = (s, [])
  ∧ (t2, CreateClient)
    ∈ (run [(t1, EvDisconnectCommand); (t2, EvTimeout ReconnectTimer (Some h))] s).2
  ∧ (∀ e, e = EvButtonDisconnect ∨ e = EvWebDisconnect →
       shouldJoin (step t1 e s).1 = false
       ∧ step t2 (EvTimeout ReconnectTimer (Some h)) (step t1 e s).1
         = ((step t1 e s).1, [])).
Proof.
  intros Hj Hd Hc. split; [|split].
  - simpl. unfold handleDisconnectCommand. by rewrite Hd.
  - simpl. unfold handleDisconnectCommand, connectToMinecraft. rewrite Hd. simpl.
    rewrite Hj, Hd, Hc. simpl.
    apply elem_of_app. left. apply list_elem_of_fmap_2.
    apply elem_of_app. left. apply elem_of_app. right.
    apply elem_of_cons. right. by apply list_elem_of_singleton.
  - intros e [-> | ->]; simpl;
      unfold buttonDisconnect, webDisconnect, operatorDisconnect; simpl;
      destruct (minecraftBot s); simpl; done.
Qed.

Lemma disconnect_while_reconnecting_witness :
  let s := (step 1 EvDisconnect (set_shouldJoin true (initial ∅ ∅))).1 in
  reconnectAttempts s = 1
  ∧ (run [(2, EvDisconnectCommand); (15001, EvTimeout ReconnectTimer (Some 1%nat))] s).2
    = [(15001, UpdateEmbed); (15001, CreateClient); (15001, SetInterval 10000)]
  ∧ (run [(2, EvButtonDisconnect); (15001, EvTimeout ReconnectTimer (Some 1%nat))] s).2
    = [(2, UpdateDiscordActivity); (2, UpdateEmbed)].
Proof.
  intros s. split; [reflexivity|]. split; [reflexivity|].
  destruct (disconnect_while_reconnecting 2 15001 1%nat s eq_refl eq_refl eq_refl)
    as (_ & _ & _).
  reflexivity.
Defined.


(** ** Joining *)

Lemma attemptReconnect_first (s : Bot) :
  shouldJoin s = true → isConnecting s = false → reconnectAttempts s = 0 →
  0 < maxReconnectAttempts s →
  attemptReconnect s
  = (set_reconnectAttempts 1 s, [UpdateEmbed; SetTimeout ReconnectTimer (reconnectDelay s)]).
Proof.
  intros Hj Hc Ha Hmax. unfold attemptReconnect. rewrite Hj, Hc, Ha. cbn [negb].
  replace (maxReconnectAttempts s <=? 0) with false by (symmetry; apply Z.leb_gt; lia).
  cbn [reconnectDelay reconnectAttempts set_reconnectAttempts].
  rewrite Z.add_0_l. change (Z.min 1 5) with 1. rewrite Z.mul_1_r. reflexivity.
Qed.

(** X17.  A successful join clears the backoff: whatever the counter was, a
    join followed by a disconnect on a session that wants to stay joined
    (and has a budget of at least one) counts as attempt 1 and arms the
    reconnect timer with the base delay. *)
Theorem join_then_disconnect (t1 t2 : Z) (s : Bot) :
  shouldJoin s = true → 0 < maxReconnectAttempts s →
  let r := run [(t1, EvJoin); (t2, EvDisconnect)] s in
  reconnectAttempts r.1 = 1
  ∧ isConnected r.1 = false ∧ minecraftBot r.1 = None
  ∧ r.2 = [(t1, UpdateDiscordActivity); (t1, UpdateEmbed); (t1, SetTimeout TpaTimer 5000);
           (t2, UpdateDiscordActivity); (t2, UpdateEmbed); (t2, UpdateEmbed);
           (t2, SetTimeout ReconnectTimer (reconnectDelay s))].
Proof.
  intros Hj Hmax r.
  pose (s1 := resetWorld (set_minecraftBot None
              (set_isConnecting false (set_isConnected false (onJoin s).1)))).
  assert (onDisconnect (onJoin s).1
          = (set_reconnectAttempts 1 s1,
             [UpdateDiscordActivity; UpdateEmbed; UpdateEmbed;
              SetTimeout ReconnectTimer (reconnectDelay s)])) as Hd.
  { unfold onDisconnect, reconnectIfWanted. fold s1.
    assert (shouldJoin s1 = true) as -> by exact Hj.
    rewrite (attemptReconnect_first s1 Hj eq_refl eq_refl Hmax). reflexivity. }
  assert (r = (set_reconnectAttempts 1 s1,
               [(t1, UpdateDiscordActivity); (t1, UpdateEmbed); (t1, SetTimeout TpaTimer 5000);
                (t2, UpdateDiscordActivity); (t2, UpdateEmbed); (t2, UpdateEmbed);
                (t2, SetTimeout ReconnectTimer (reconnectDelay s))])) as ->.
  { subst r. cbn [run step]. rewrite Hd. reflexivity. }
  repeat split; reflexivity.
Qed.

Lemma join_then_disconnect_witness :
  let s := set_reconnectAttempts 7 (set_shouldJoin true (initial ∅ ∅)) in
  reconnectAttempts (run [(1, EvJoin); (2, EvDisconnect)] s).1 = 1.
Proof.
  intros s.
  assert (0 < maxReconnectAttempts s) as Hmax by (simpl; lia).
  exact (proj1 (join_then_disconnect 1 2 s eq_refl Hmax)).
Defined.

(** X18.  The arrival command.  Five seconds after a join the bot queues
    [/tpa doggomc], verbatim, to the client that joined; if a disconnect or
    a kick came in between, the timer finds no client and queues nothing. *)
Theorem join_then_tpa (t1 t2 t3 : Z) (created : option handle) (h : handle) (s : Bot) :
  minecraftBot s = Some h →
  (run [(t1, EvJoin); (t2, EvTimeout TpaTimer created)] s).2
  = [(t1, UpdateDiscordActivity); (t1, UpdateEmbed); (t1, SetTimeout TpaTimer 5000);
     (t2, ClientQueue h "command_request" "/tpa doggomc")]
  ∧ (∀ e, e = EvDisconnect ∨ e = EvKick →
       step t3 (EvTimeout TpaTimer created) (run [(t1, EvJoin); (t2, e)] s).1
       = ((run [(t1, EvJoin); (t2, e)] s).1, [])).
Proof.
  intros Hb. split.
  - cbn [run step]. unfold onJoin, onTimeout, sendChatMessage.
    cbn [fst snd minecraftBot isConnected set_reconnectAttempts set_isConnecting
         set_isConnected].
    rewrite Hb.
    rewrite (bool_decide_eq_true_2 (is_Some (Some h))) by (by eexists).
    reflexivity.
  - intros e He.
    assert (isDisconnectEvent e = true) as Hev by (destruct He as [-> | ->]; reflexivity).
    change (run [(t1, EvJoin); (t2, e)] s).1 with (step t2 e (step t1 EvJoin s).1).1.
    destruct (disconnect_handlers t2 e (step t1 EvJoin s).1 Hev) as (Hd & _).
    set (st := (step t2 e (step t1 EvJoin s).1).1) in *.
    change (onTimeout TpaTimer created st = (st, [])).
    unfold onTimeout. rewrite Hd, andb_false_r. reflexivity.
Qed.

Lemma join_then_tpa_witness :
  let s := (step 0 (EvButtonConnect (Some 1%nat)) (initial ∅ ∅)).1 in
  (run [(1, EvJoin); (5001, EvTimeout TpaTimer None)] s).2
  = [(1, UpdateDiscordActivity); (1, UpdateEmbed); (1, SetTimeout TpaTimer 5000);
     (5001, ClientQueue 1%nat "command_request" "/tpa doggomc")].
Proof.
  intros s. exact (proj1 (join_then_tpa 1 5001 0 None 1%nat s eq_refl)).
Defined.

(** ** One connection attempt at a time *)





(** ** Reconnect backoff across the [await] *)

Lemma attemptReconnect_uninterrupted s :
  attemptReconnect s = attemptReconnectInterleaved [] s.
Proof.
  unfold attemptReconnect, attemptReconnectInterleaved, attemptReconnectBegin,
    attemptReconnectResume.
  destruct (shouldJoin s), (isConnecting s),
    (maxReconnectAttempts s <=? reconnectAttempts s); reflexivity.
Qed.

Lemma connectToMinecraft_uninterrupted created s :
  connectToMinecraft created s = connectToMinecraftUninterrupted created s.
Proof.
  unfold connectToMinecraft, connectToMinecraftUninterrupted, connectToMinecraftBegin,
    connectToMinecraftResume, attemptReconnect, attemptReconnectBegin,
    attemptReconnectResume.
  destruct (isConnecting s); [reflexivity|].
  destruct created; simpl; [rewrite <- ?app_assoc; reflexivity|].
  destruct (shouldJoin s); simpl; [|rewrite <- ?app_assoc; reflexivity].
  destruct (maxReconnectAttempts s <=? reconnectAttempts s); simpl;
    rewrite <- ?app_assoc; reflexivity.
Qed.

(** The operator posts [/disconnect] while the first reconnect attempt
    waits for its status update: the counter is back at zero when the delay
    is computed, and the timer is armed with delay 0 instead of 15 s. *)
Lemma backoffAlways_fails_across_await :
  ¬ backoffAlways [(5, EvWebDisconnect)] (set_shouldJoin true (initial ∅ ∅)).
Proof.
  intros H.
  assert (reconnectAttempts (set_shouldJoin true (initial ∅ ∅))
          < maxReconnectAttempts (set_shouldJoin true (initial ∅ ∅))) as Hlt
    by (vm_compute; reflexivity).
  specialize (H eq_refl eq_refl Hlt). vm_compute in H. discriminate H.
Qed.

Example attemptReconnect_interrupted_by_disconnect :
  attemptReconnectInterleaved [(5, EvWebDisconnect)] (set_shouldJoin true (initial ∅ ∅))
  = (initial ∅ ∅, [UpdateEmbed; SetTimeout ReconnectTimer 0]).
Proof. vm_compute. reflexivity. Qed.

(** C2, amended.  [attemptReconnect] with [shouldJoin] set, no connect in
    flight and budget left adds exactly one to [reconnectAttempts], then
    waits for the status update.  When the wait is over it arms a single
    timer, with delay [reconnectDelay * min(reconnectAttempts, 5)] for the
    counter as it then stands, whatever handlers ran meanwhile; when none
    wrote the counter, and in particular when none ran, that is
    [reconnectDelay * min(n + 1, 5)] for the counter [n] the invocation
    found.  When the timer fires it calls [connectToMinecraft], which
    creates a client, if [shouldJoin] still holds and the session is neither
    connected nor connecting, and does nothing otherwise. *)
Theorem attemptReconnect_backoff (s : Bot) :
  shouldJoin s = true →
  isConnecting s = false →
  reconnectAttempts s < maxReconnectAttempts s →
  let n := reconnectAttempts s + 1 in
  attemptReconnectBegin s = (set_reconnectAttempts n s, [UpdateEmbed], true)
  ∧ (∀ m, attemptReconnectResume m
          = (m, [SetTimeout ReconnectTimer
                   (reconnectDelay m * Z.min (reconnectAttempts m) 5)]))
  ∧ (∀ during,
       let m := (run during (set_reconnectAttempts n s)).1 in
       attemptReconnectInterleaved during s
       = (m, [UpdateEmbed;
              SetTimeout ReconnectTimer (reconnectDelay s * Z.min (reconnectAttempts m) 5)])
       ∧ (reconnectAttempts m = n →
          (attemptReconnectInterleaved during s).2
          = [UpdateEmbed; SetTimeout ReconnectTimer (reconnectDelay s * Z.min n 5)]))
  ∧ attemptReconnect s
    = (set_reconnectAttempts n s,
       [UpdateEmbed; SetTimeout ReconnectTimer (reconnectDelay s * Z.min n 5)])
  ∧ (∀ created s',
      (shouldJoin s' = true ∧ isConnected s' = false ∧ isConnecting s' = false →
         onTimeout ReconnectTimer created s' = connectToMinecraft created s'
         ∧ CreateClient ∈ (onTimeout ReconnectTimer created s').2)
      ∧ (¬ (shouldJoin s' = true ∧ isConnected s' = false ∧ isConnecting s' = false) →
         onTimeout ReconnectTimer created s' = (s', []))).
Proof.
  intros Hj Hc Hlt n.
  assert (attemptReconnectBegin s = (set_reconnectAttempts n s, [UpdateEmbed], true))
    as Hbegin.
  { unfold attemptReconnectBegin. rewrite Hj, Hc. simpl.
    replace (maxReconnectAttempts s <=? reconnectAttempts s) with false
      by (symmetry; apply Z.leb_gt; lia).
    reflexivity. }
  assert (∀ during,
            attemptReconnectInterleaved during s
            = ((run during (set_reconnectAttempts n s)).1,
               [UpdateEmbed;
                SetTimeout ReconnectTimer
                  (reconnectDelay s
                   * Z.min (reconnectAttempts (run during (set_reconnectAttempts n s)).1) 5)]))
    as Hinter.
  { intros during. unfold attemptReconnectInterleaved. rewrite Hbegin.
    unfold attemptReconnectResume. simpl. by rewrite run_reconnectDelay. }
  split; [exact Hbegin|]. split; [reflexivity|]. split; [|split].
  - intros during m. split; [apply Hinter|].
    intros Hm. rewrite Hinter. simpl. subst m. by rewrite Hm.
  - rewrite attemptReconnect_uninterrupted, Hinter. reflexivity.
  - intros created s'. split.
    + intros (Hj' & Hd' & Hc'). simpl. rewrite Hj', Hd', Hc'. simpl.
      unfold connectToMinecraft. rewrite Hc'. split; [reflexivity|].
      destruct created; simpl.
      * apply elem_of_app. left. apply elem_of_app. right. apply elem_of_cons. right.
        apply list_elem_of_singleton. reflexivity.
      * rewrite Hj'. simpl. apply elem_of_app. left. apply elem_of_app. right.
        apply elem_of_cons. right. apply list_elem_of_singleton. reflexivity.
    + intros Hno. simpl.
      destruct (shouldJoin s') eqn:E1, (isConnected s') eqn:E2, (isConnecting s') eqn:E3;
        try reflexivity.
      exfalso. apply Hno. done.
Qed.

(** The first reconnect after a disconnect of the freshly built bot: 15 s
    when nothing runs during the wait, and also when a health packet does. *)
Lemma attemptReconnect_backoff_witness :
  let s := set_shouldJoin true (initial ∅ ∅) in
  attemptReconnect s
  = (set_reconnectAttempts 1 s, [UpdateEmbed; SetTimeout ReconnectTimer 15000])
  ∧ (attemptReconnectInterleaved [(5, EvSetHealth (Some 18))] s).2
    = [UpdateEmbed; SetTimeout ReconnectTimer 15000].
Proof.
  intros s.
  assert (reconnectAttempts s < maxReconnectAttempts s) as Hlt by (simpl; lia).
  destruct (attemptReconnect_backoff s eq_refl eq_refl Hlt) as (_ & _ & Hinter & Hplain & _).
  split; [exact Hplain|].
  exact (proj2 (Hinter [(5, EvSetHealth (Some 18))]) eq_refl).
Defined.
